(** * ci-badge-reddit: the two badge handlers of [app.py]

    A shallow embedding of [src/app.py]: the Flask handlers [last_test]
    ([/last.svg]) and [app_deployed] ([/appdeployed]) with the
    cache-then-fetch-then-cache flow they implement on top of a redis
    client and the two upstream checks of the [heroku] module.

    The handlers are Python functions with side effects (environment
    reads, redis commands, upstream calls, log lines) and exceptions.
    They are embedded in a state-and-exception monad over a [world]
    that holds the process environment, the redis store with a clock,
    what the collaborators answer, and the trace of calls made so far. *)

From stdpp Require Import base option list strings gmap pretty.
From Stdlib Require Import ZArith Lia Ascii String.

Open Scope Z_scope.
Open Scope string_scope.

(** ** Python values used by the handlers *)

Module Py.

(** A Python [str] is a sequence of code points.  The embedding keeps the
    code points U+0000..U+00FF, one per [ascii] character (the numbering
    of Latin-1), which contains every literal of [app.py]. A [bytes]
    value is a sequence of octets, also one per [ascii] character. *)

Definition code (c : ascii) : nat := nat_of_ascii c.

(** Numeric_Type=Decimal below U+0100: the digits 0..9. *)
Definition is_decimal_char (c : ascii) : bool :=
  (48 <=? code c)%nat && (code c <=? 57)%nat.

(** Numeric_Type=Digit or Decimal below U+0100: 0..9 and the
    superscripts U+00B2, U+00B3 and U+00B9. *)
Definition is_digit_char (c : ascii) : bool :=
  is_decimal_char c
  || (code c =? 178)%nat || (code c =? 179)%nat || (code c =? 185)%nat.

Fixpoint all_chars (p : ascii → bool) (s : string) : bool :=
  match s with
  | EmptyString => true
  | String c s' => p c && all_chars p s'
  end.

(** [str.isdigit()]: at least one character and every character is a
    digit in the sense of the Unicode database. *)
Definition isdigit (s : string) : bool :=
  match s with
  | EmptyString => false
  | _ => all_chars is_digit_char s
  end.

(** [str.isdecimal()], the stricter test that [app.py] does not use. *)
Definition isdecimal (s : string) : bool :=
  match s with
  | EmptyString => false
  | _ => all_chars is_decimal_char s
  end.

Fixpoint decimal_value_from (acc : Z) (s : string) : Z :=
  match s with
  | EmptyString => acc
  | String c s' => decimal_value_from (10 * acc + (Z.of_nat (code c) - 48)) s'
  end.

Definition decimal_value (s : string) : Z := decimal_value_from 0 s.

(** [sys.get_int_max_str_digits()]: the longest digit string [int]
    converts, 4300 by default in CPython 3.11 and later. *)
Definition int_max_str_digits : nat := 4300.

(** [int(s)] on the strings that reach it in [app.py], which are those
    with [s.isdigit()]: a run of at most [int_max_str_digits] decimal
    digits is read in base 10; anything else (a superscript digit, a
    longer run) is a [ValueError]. *)
Definition int (s : string) : option Z :=
  if isdecimal s && (String.length s <=? int_max_str_digits)%nat
  then Some (decimal_value s)
  else None.

(** [str(n)] for an integer. *)
Definition str (n : Z) : string := pretty n.

(** [bytes.decode('ascii')]: fails on any octet above 0x7F. *)
Definition is_ascii_char (c : ascii) : bool := (code c <? 128)%nat.

Definition decode_ascii (b : string) : option string :=
  if all_chars is_ascii_char b then Some b else None.

(** [str.encode('utf-8')] on code points below U+0100, which is how the
    redis client turns a [str] value into the stored [bytes]. *)
Fixpoint encode_utf8 (s : string) : string :=
  match s with
  | EmptyString => EmptyString
  | String c s' =>
      if is_ascii_char c then String c (encode_utf8 s')
      else String (ascii_of_nat (192 + code c / 64))
             (String (ascii_of_nat (128 + code c mod 64)) (encode_utf8 s'))
  end.

(** What [request.args.get(key, default)] can hand back for [svg]: the
    query string's text, or the integer default. *)
Inductive value :=
  | Str (s : string)
  | Int (n : Z).

(** [v == n] for an integer literal [n]: a [str] never equals an [int]. *)
Definition eq_int (v : value) (n : Z) : bool :=
  match v with
  | Int m => bool_decide (m = n)
  | Str _ => false
  end.

End Py.

(** ** Exceptions, responses, events *)

(** The exceptions of [redis.exceptions] a command can raise. *)
Inductive redis_error :=
  | ConnectionError
  | AuthenticationError  (* a subclass of ConnectionError *)
  | BusyLoadingError     (* a subclass of ConnectionError *)
  | TimeoutError
  | ResponseError
  | DataError.

Inductive exn :=
  | AssertionError
  | ValueError
  | UnicodeDecodeError
  | RedisError (e : redis_error).

(** [except redis.exceptions.ConnectionError] catches the class and its
    subclasses, and nothing else. *)
Definition is_connection_error (e : exn) : bool :=
  match e with
  | RedisError (ConnectionError | AuthenticationError | BusyLoadingError) => true
  | _ => false
  end.

Inductive response :=
  | File (directory filename : string)   (* send_from_directory *)
  | Redirect (location : string).        (* redirect *)

Inductive event :=
  | LogInfo (msg : string)
  | LogError (msg : string)
  | RedisGet (key : string)
  | RedisSet (key value : string) (ex : Z)
  | FetchLastTestRun
  | FetchAppDeployed (url : string).

(** ** The world a request runs in *)

(** A redis entry written by [SET key value EX ex] at time [set_at]. *)
Record entry := Entry { value : string; set_at : Z; ex : Z }.

Record world := World {
  environ : gmap string string;          (* os.environ *)
  store : gmap string entry;             (* the redis store *)
  now : Z;                               (* the store's clock, in seconds *)
  redis_get_exn : option redis_error;    (* what r.get raises, if anything *)
  redis_set_exn : option redis_error;    (* what r.set raises, if anything *)
  last_test_run_status : option string;  (* heroku.get_last_test_run_status() *)
  app_is_deployed : string → string;     (* heroku.check_if_app_is_deployed(url) *)
  trace : list event                     (* calls and log lines, oldest first *)
}.

Definition with_trace (t : list event) (w : world) : world :=
  World (environ w) (store w) (now w) (redis_get_exn w) (redis_set_exn w)
        (last_test_run_status w) (app_is_deployed w) t.

Definition with_store (s : gmap string entry) (w : world) : world :=
  World (environ w) s (now w) (redis_get_exn w) (redis_set_exn w)
        (last_test_run_status w) (app_is_deployed w) (trace w).

Definition emit (e : event) (w : world) : world :=
  with_trace (trace w ++ [e]) w.

(** An entry is readable strictly before [set_at + ex]. *)
Definition live (t : Z) (e : entry) : bool := bool_decide (t < set_at e + ex e).

(** ** The monad of handler code *)

Inductive result (A : Type) :=
  | Return (a : A)
  | Raise (e : exn).
Arguments Return {A} a.
Arguments Raise {A} e.

Definition M (A : Type) : Type := world → result A * world.

#[global] Instance M_ret : MRet M := λ A a w, (Return a, w).
#[global] Instance M_bind : MBind M := λ A B f m w,
  match m w with
  | (Return a, w') => f a w'
  | (Raise e, w') => (Raise e, w')
  end.

Definition raise {A} (e : exn) : M A := λ w, (Raise e, w).

(** [try: x = body] with the exception, if any, handed to the caller,
    who plays the [except] clauses. *)
Definition try_call {A} (body : M A) : M (result A) := λ w,
  match body w with
  | (r, w') => (Return r, w')
  end.

Definition log_info (msg : string) : M unit := λ w, (Return tt, emit (LogInfo msg) w).
Definition log_error (msg : string) : M unit := λ w, (Return tt, emit (LogError msg) w).

(** [os.getenv(name)] and [os.getenv(name, default)]. *)
Definition getenv (name : string) : M (option string) := λ w,
  (Return (environ w !! name), w).

Definition getenv_default (name dflt : string) : M string := λ w,
  (Return (default dflt (environ w !! name)), w).

(** ** The redis client

    [redis.from_url] only builds the client; the first command opens the
    connection.  The [REDIS_URL] of a world, when present, is taken to be
    one [from_url] accepts: a URL it refuses is outside the worlds
    considered here.

    A command is recorded in the trace when it is issued, then raises
    what the world says it raises, or acts on the store.  What [r.set]
    raises is the world's to say because it is the server's: a lost
    connection, or the refusal of an expiry the server does not take,
    such as [EX 0].  A handler issues at most one [SET] per request, with
    an expiry its environment determines, so every run of the program
    is the run of some world; there are worlds no server realises, and
    a statement that holds in all worlds holds in the real ones. *)

(** What [GET key] answers at the world's time: expired entries are gone. *)
Definition read_key (key : string) (w : world) : option string :=
  match store w !! key with
  | Some e => if live (now w) e then Some (value e) else None
  | None => None
  end.

Definition redis_get (key : string) : M (option string) := λ w,
  let w' := emit (RedisGet key) w in
  match redis_get_exn w with
  | Some e => (Raise (RedisError e), w')
  | None => (Return (read_key key w), w')
  end.

Definition redis_set (key val : string) (ex : Z) : M unit := λ w,
  let w' := emit (RedisSet key (Py.encode_utf8 val) ex) w in
  match redis_set_exn w with
  | Some e => (Raise (RedisError e), w')
  | None => (Return tt, with_store (<[key := Entry (Py.encode_utf8 val) (now w) ex]> (store w)) w')
  end.

(** ** The upstream checks of the [heroku] module *)

(** Modelled from the spec: [heroku.py] is not part of the sources; its
    two functions are the collaborators
    [fetchLastRunStatus() -> token|none] and
    [fetchAppDeployed(url) -> token] of section 6.  Each call is recorded
    in the trace and answers what the world says it answers. *)
Definition get_last_test_run_status : M (option string) := λ w,
  (Return (last_test_run_status w), emit FetchLastTestRun w).

(** Modelled from the spec: [fetchAppDeployed(url) -> token], see above. *)
Definition check_if_app_is_deployed (url : string) : M string := λ w,
  (Return (app_is_deployed w url), emit (FetchAppDeployed url) w).

(** ** [app.py] *)

Definition BADGE_DIR : string := "./badges".
Definition CACHE_TIMEOUT_DEFAULT : Z := 900.
Definition REDIS_CONNECT_TIMEOUT : Z := 10.
Definition BADGES_ENUM : list string := ["succeeded"; "failed"; "errored"].
Definition FILES_ENUM : list string := BADGES_ENUM ++ ["error"].

(** [x in t] for a tuple of strings. *)
Definition py_in (x : string) (t : list string) : bool := bool_decide (x ∈ t).

(** [File directory filename] stands for the call
    [send_from_directory(directory, filename)]; whether that file is on
    disk is not part of the world. *)
Definition send_from_directory (directory filename : string) : M response :=
  mret (File directory filename).

Definition send_badge_file (badge : string) : M response :=
  if py_in badge FILES_ENUM
  then send_from_directory BADGE_DIR (badge +:+ ".svg")
  else raise AssertionError.

Definition send_heroku_badge (badge_name style file_extension : string) : M response :=
  send_from_directory BADGE_DIR (badge_name +:+ style +:+ "." +:+ file_extension).

Definition index : M response := mret (Redirect "/last.svg").

(** Lines 88-96 and 149-157, the same text in both handlers. *)
Definition read_cache_timeout : M Z :=
  cache_timeout ← getenv_default "CACHE_TIMEOUT" (Py.str CACHE_TIMEOUT_DEFAULT);
  if Py.isdigit cache_timeout then
    match Py.int cache_timeout with
    | Some n => mret n
    | None => raise ValueError
    end
  else
    log_error "CACHE_TIMEOUT is not a valid int";;
    mret CACHE_TIMEOUT_DEFAULT.

Definition last_test : M response :=
  token ← getenv "HEROKU_AUTH_TOKEN";
  if token is None then
    log_info "mandatory HEROKU_AUTH_TOKEN env var not set (see README.md)";;
    send_badge_file "error"
  else
  pipeline ← getenv "PIPELINE_ID";
  if pipeline is None then
    log_info "mandatory PIPELINE_ID env var not set (see README.md)";;
    send_badge_file "error"
  else
  url ← getenv "REDIS_URL";
  if url is None then
    log_info "mandatory REDIS_URL env var not set (did you provision a redis add-on?)";;
    send_badge_file "error"
  else
  got ← try_call (redis_get "build_result");
  match got with
  | Raise e =>
      if is_connection_error e then
        log_error "could not connect to redis";;
        send_badge_file "error"
      else raise e
  | Return (Some cached) =>
      match Py.decode_ascii cached with
      | Some badge => send_badge_file badge
      | None => raise UnicodeDecodeError
      end
  | Return None =>
      result ← get_last_test_run_status;
      match result with
      | None =>
          log_error "could not get result from Heroku";;
          send_badge_file "error"
      | Some result =>
          if negb (py_in result BADGES_ENUM) then
            log_error ("got unexpected build status: " +:+ result);;
            send_badge_file "error"
          else
            cache_timeout ← read_cache_timeout;
            redis_set "build_result" result cache_timeout;;
            send_badge_file result
      end
  end.

(** The query string of a request: [request.args], first value per key. *)
Definition app_deployed (args : gmap string string) : M response :=
  let app_name := args !! "app" in
  let style := default "" (args !! "style") in
  let svg := from_option Py.Str (Py.Int 0) (args !! "svg") in
  let root := default "" (args !! "root") in
  let file_extension := "png" in
  let file_extension := if Py.eq_int svg 1 then "svg" else file_extension in
  let style := if bool_decide (style = "flat") then "-" +:+ style else style in
  match app_name with
  | None =>
      log_info "mandatory app param not set";;
      send_heroku_badge "heroku-failed" style file_extension
  | Some app_name =>
  url ← getenv "REDIS_URL";
  if url is None then
    log_info "mandatory REDIS_URL env var not set (did you provision a redis add-on?)";;
    send_heroku_badge "heroku-failed" style file_extension
  else
  got ← try_call (redis_get (app_name +:+ "_deployed"));
  match got with
  | Raise e =>
      if is_connection_error e then
        log_error "could not connect to redis";;
        send_heroku_badge "heroku-failed" style file_extension
      else raise e
  | Return (Some cached) =>
      match Py.decode_ascii cached with
      | Some badge => send_heroku_badge badge style file_extension
      | None => raise UnicodeDecodeError
      end
  | Return None =>
      let url := "https://" +:+ app_name +:+ ".herokuapp.com/" +:+ root in
      result ← check_if_app_is_deployed url;
      cache_timeout ← read_cache_timeout;
      redis_set (app_name +:+ "_deployed") result cache_timeout;;
      send_heroku_badge result style file_extension
  end
  end.

(** ** Routing and the vocabulary of the statements *)

(** The two badge routes of [app.py]; [/appdeployed] comes with its
    query string. *)
Inductive endpoint :=
  | LastSvg
  | AppDeployed (args : gmap string string).

Definition serve (r : endpoint) : M response :=
  match r with
  | LastSvg => last_test
  | AppDeployed args => app_deployed args
  end.

(** The style suffix of lines 107 and 113-114. *)
Definition style_suffix (args : gmap string string) : string :=
  let style := default "" (args !! "style") in
  if bool_decide (style = "flat") then "-" +:+ style else style.

(** The badge a handler falls back to: the generic error badge of
    [/last.svg], the failed badge of [/appdeployed] in the requested
    style (its extension is the one lines 110-112 compute, see
    [file_extension_png]). *)
Definition degraded_badge (r : endpoint) : response :=
  match r with
  | LastSvg => File BADGE_DIR "error.svg"
  | AppDeployed args =>
      File BADGE_DIR ("heroku-failed" +:+ style_suffix args +:+ "." +:+ "png")
  end.

(** The asset a handler serves for the token [T]. *)
Definition badge_of (r : endpoint) (T : string) : response :=
  match r with
  | LastSvg => File BADGE_DIR (T +:+ ".svg")
  | AppDeployed args => File BADGE_DIR (T +:+ style_suffix args +:+ "." +:+ "png")
  end.

(** The tokens an endpoint writes to the cache: [last_test] checks the
    fetched value against [BADGES_ENUM]; [app_deployed] has no
    enumeration and takes whatever ASCII token the check returned. *)
Definition valid_token (r : endpoint) (T : string) : Prop :=
  match r with
  | LastSvg => T ∈ BADGES_ENUM
  | AppDeployed _ => Py.decode_ascii T = Some T
  end.

(** The four assets of [/last.svg]. *)
Definition BADGE_FILES : list response :=
  [File "./badges" "succeeded.svg"; File "./badges" "failed.svg";
   File "./badges" "errored.svg"; File "./badges" "error.svg"].

(** A mandatory input of the endpoint is absent. *)
Definition missing_input (r : endpoint) (w : world) : bool :=
  match r with
  | LastSvg =>
      negb (bool_decide (is_Some (environ w !! "HEROKU_AUTH_TOKEN")))
      || negb (bool_decide (is_Some (environ w !! "PIPELINE_ID")))
      || negb (bool_decide (is_Some (environ w !! "REDIS_URL")))
  | AppDeployed args =>
      negb (bool_decide (is_Some (args !! "app")))
      || negb (bool_decide (is_Some (environ w !! "REDIS_URL")))
  end.

(** The cache key of the endpoint, when the request names one. *)
Definition cache_key (r : endpoint) : option string :=
  match r with
  | LastSvg => Some "build_result"
  | AppDeployed args => (λ app_name, app_name +:+ "_deployed") <$> args !! "app"
  end.

Definition is_fetch (e : event) : bool :=
  match e with
  | FetchLastTestRun | FetchAppDeployed _ => true
  | _ => false
  end.

Definition is_cache_lookup (e : event) : bool :=
  match e with
  | RedisGet _ => true
  | _ => false
  end.

Definition is_cache_write (e : event) : bool :=
  match e with
  | RedisSet _ _ _ => true
  | _ => false
  end.

Definition is_log_error (e : event) : bool :=
  match e with
  | LogError _ => true
  | _ => false
  end.

Fixpoint count (p : event → bool) (t : list event) : nat :=
  match t with
  | [] => 0
  | e :: t' => (if p e then 1 else 0) + count p t'
  end.

(** The spec's effective TTL: the override when it is a valid
    non-negative integer string, the default otherwise. *)
Definition effective_ttl (override : option string) : Z :=
  match override with
  | Some s => if Py.isdecimal s then Py.decimal_value s else CACHE_TIMEOUT_DEFAULT
  | None => CACHE_TIMEOUT_DEFAULT
  end.

(** The override is absent, rejected by [isdigit], or a decimal string
    that [int] accepts: reading it raises nothing. *)
Definition timeout_readable (override : option string) : bool :=
  match override with
  | Some s =>
      match Py.int s with
      | Some _ => true
      | None => negb (Py.isdigit s)
      end
  | None => true
  end.

(** The invariant of section 3 for the build key. *)
Definition build_cache_valid (s : gmap string entry) : Prop :=
  ∀ e, s !! "build_result" = Some e → value e ∈ BADGES_ENUM.

(** The second of two requests: later by [d] seconds, with the store,
    environment and trace the first one left, and collaborators that may
    answer differently. *)
Definition later (d : Z) (get_exn set_exn : option redis_error)
    (status : option string) (deployed : string → string) (w : world) : world :=
  World (environ w) (store w) (now w + d) get_exn set_exn status deployed (trace w).

(** ** Sample worlds and requests *)

Definition env_full : gmap string string :=
  <["HEROKU_AUTH_TOKEN" := "secret"]>
    (<["PIPELINE_ID" := "pipeline"]> (<["REDIS_URL" := "redis://localhost:6379"]> ∅)).

Definition deployed_always (token : string) : string → string := λ _, token.

(** All configuration present, empty cache, upstream reports a green build. *)
Definition w_fresh : world :=
  World env_full ∅ 0 None None (Some "succeeded") (deployed_always "heroku-succeeded") [].

(** Nothing configured at all. *)
Definition w_unconfigured : world :=
  World ∅ ∅ 0 None None (Some "succeeded") (deployed_always "heroku-succeeded") [].

(** The store cannot be reached when the lookup is made. *)
Definition w_cache_down : world :=
  World env_full ∅ 0 (Some ConnectionError) None (Some "succeeded")
        (deployed_always "heroku-succeeded") [].

(** A cache that already holds [val] under [key], written at time 0 for
    900 seconds, read at time 10. *)
Definition w_cached (key val : string) : world :=
  World env_full (<[key := Entry val 0 900]> ∅) 10 None None (Some "failed")
        (deployed_always "heroku-failed") [].

Definition args_app (app_name : string) : gmap string string :=
  <["app" := app_name]> ∅.

(** The upstream cannot be reached: no status comes back. *)
Definition w_upstream_down : world :=
  World env_full ∅ 0 None None None (deployed_always "heroku-succeeded") [].

(** The lookup works, the write does not. *)
Definition w_set_fails : world :=
  World env_full ∅ 0 None (Some ConnectionError) (Some "succeeded")
        (deployed_always "heroku-succeeded") [].

(** The deploy check answers with a word of its own. *)
Definition w_deploy_check_odd : world :=
  World env_full ∅ 0 None None (Some "succeeded") (deployed_always "error") [].

(** [CACHE_TIMEOUT] set to the one-character string U+00B2, superscript two. *)
Definition superscript_two : string := String (ascii_of_nat 178) EmptyString.

Definition w_timeout_superscript : world :=
  World (<["CACHE_TIMEOUT" := superscript_two]> env_full) ∅ 0 None None
        (Some "succeeded") (deployed_always "heroku-succeeded") [].

(** [CACHE_TIMEOUT=60]. *)
Definition w_timeout_60 : world :=
  World (<["CACHE_TIMEOUT" := "60"]> env_full) ∅ 0 None None
        (Some "succeeded") (deployed_always "heroku-succeeded") [].

(** [CACHE_TIMEOUT=0]: the server answers [SET ... EX 0] with an error. *)
Definition w_timeout_zero : world :=
  World (<["CACHE_TIMEOUT" := "0"]> env_full) ∅ 0 None (Some ResponseError)
        (Some "succeeded") (deployed_always "heroku-succeeded") [].

(** [CACHE_TIMEOUT=abc]. *)
Definition w_timeout_abc : world :=
  World (<["CACHE_TIMEOUT" := "abc"]> env_full) ∅ 0 None None
        (Some "succeeded") (deployed_always "heroku-succeeded") [].

(** Modelled from the spec: the deploy tokens named in section 3;
    [app.py] itself lists none. *)
Definition DEPLOY_ENUM : list string := ["heroku-succeeded"; "heroku-failed"].

(** The fetch of [last_test] came back empty or outside [BADGES_ENUM]. *)
Definition invalid_status (status : option string) : bool :=
  match status with
  | None => true
  | Some result => negb (py_in result BADGES_ENUM)
  end.

(** ** Vocabulary of the call protocol *)

Definition is_log (e : event) : bool :=
  match e with
  | LogInfo _ | LogError _ => true
  | _ => false
  end.

(** The calls to the cache and to the upstream, without the log lines. *)
Fixpoint strip_logs (t : list event) : list event :=
  match t with
  | [] => []
  | e :: t' => if is_log e then strip_logs t' else e :: strip_logs t'
  end.

(** The URL of line 142. *)
Definition upstream_url (app_name root : string) : string :=
  "https://" +:+ app_name +:+ ".herokuapp.com/" +:+ root.

(** The upstream call of the endpoint, when the request names one. *)
Definition fetch_call (r : endpoint) : option event :=
  match r with
  | LastSvg => Some FetchLastTestRun
  | AppDeployed args =>
      (λ app_name, FetchAppDeployed (upstream_url app_name (default "" (args !! "root"))))
        <$> args !! "app"
  end.

(** The request gets as far as the upstream: nothing mandatory is
    missing, the lookup raises nothing and finds no live entry. *)
Definition fetch_needed (r : endpoint) (w : world) : bool :=
  negb (missing_input r w)
  && match redis_get_exn w with None => true | Some _ => false end
  && match cache_key r with
     | Some key => match read_key key w with None => true | Some _ => false end
     | None => false
     end.

(** The lookup times out instead of failing to connect. *)
Definition w_cache_timeout : world :=
  World env_full ∅ 0 (Some TimeoutError) None (Some "succeeded")
        (deployed_always "heroku-succeeded") [].

(** A stored value that is not ASCII: the octets of U+00B2 in UTF-8. *)
Definition w_cached_octets : world :=
  w_cached "build_result" (Py.encode_utf8 superscript_two).


(** What the deploy check answers for the app and root of a request. *)
Definition fetched_token (app_name : string) (args : gmap string string)
    (w : world) : string :=
  app_is_deployed w (upstream_url app_name (default "" (args !! "root"))).

(** The same world [d] seconds later: nothing else has changed. *)
Definition advance (d : Z) (w : world) : world :=
  later d (redis_get_exn w) (redis_set_exn w) (last_test_run_status w)
        (app_is_deployed w) w.

(** The same request made again and again, each time after the given
    delay: the responses in order, and the world at the end. *)
Fixpoint replay (r : endpoint) (delays : list Z) (w : world)
    : list (result response) * world :=
  match delays with
  | [] => ([], w)
  | d :: delays' =>
      let '(res, w1) := serve r (advance d w) in
      let '(rest, w2) := replay r delays' w1 in
      (res :: rest, w2)
  end.

Definition total_delay (delays : list Z) : Z := foldr Z.add 0 delays.

(** * Properties *)

(** ** The handlers as decision trees *)

(** Case analysis on the environment lookups a handler starts with; the
    branches where a variable is missing go to [tac]. *)
Ltac case_environ w tac :=
  repeat (match goal with
          | |- context [match environ w !! ?k with _ => _ end] =>
              destruct (environ w !! k); [|tac]
          end).

Lemma count_app p t1 t2 : count p (t1 ++ t2) = (count p t1 + count p t2)%nat.
Proof. induction t1 as [|e t1 IH]; simpl; [done | rewrite IH; lia]. Qed.

Lemma count_emit p e w :
  count p (trace (emit e w)) = (count p (trace w) + if p e then 1 else 0)%nat.
Proof. simpl. rewrite count_app. simpl. lia. Qed.

Lemma send_badge_file_member badge w :
  badge ∈ FILES_ENUM →
  send_badge_file badge w = (Return (File BADGE_DIR (badge +:+ ".svg")), w).
Proof.
  intros Hin. unfold send_badge_file, py_in.
  rewrite bool_decide_eq_true_2 by done. reflexivity.
Qed.

Lemma send_badge_file_stranger badge w :
  badge ∉ FILES_ENUM → send_badge_file badge w = (Raise AssertionError, w).
Proof.
  intros Hout. unfold send_badge_file, py_in.
  rewrite bool_decide_eq_false_2 by done. reflexivity.
Qed.

Lemma send_badge_file_error w :
  send_badge_file "error" w = (Return (File BADGE_DIR "error.svg"), w).
Proof. reflexivity. Qed.

Lemma badges_are_files badge : badge ∈ BADGES_ENUM → badge ∈ FILES_ENUM.
Proof. intros Hin. unfold FILES_ENUM. apply elem_of_app. by left. Qed.

(** The extension computed at lines 108-112 is [png] whatever the query
    string holds. *)
Lemma file_extension_png (args : gmap string string) :
  (if Py.eq_int (from_option Py.Str (Py.Int 0) (args !! "svg")) 1 then "svg" else "png")
  = "png".
Proof. destruct (args !! "svg"); reflexivity. Qed.

Lemma app_deployed_unfold args w :
  app_deployed args w =
  let style := style_suffix args in
  match args !! "app" with
  | None =>
      (Return (File BADGE_DIR ("heroku-failed" +:+ style +:+ "." +:+ "png")),
       emit (LogInfo "mandatory app param not set") w)
  | Some app_name =>
      match environ w !! "REDIS_URL" with
      | None =>
          (Return (File BADGE_DIR ("heroku-failed" +:+ style +:+ "." +:+ "png")),
           emit (LogInfo "mandatory REDIS_URL env var not set (did you provision a redis add-on?)") w)
      | Some _ =>
          let key := app_name +:+ "_deployed" in
          let w1 := emit (RedisGet key) w in
          match redis_get_exn w with
          | Some e =>
              if is_connection_error (RedisError e) then
                (Return (File BADGE_DIR ("heroku-failed" +:+ style +:+ "." +:+ "png")),
                 emit (LogError "could not connect to redis") w1)
              else (Raise (RedisError e), w1)
          | None =>
              match read_key key w with
              | Some cached =>
                  match Py.decode_ascii cached with
                  | Some badge =>
                      (Return (File BADGE_DIR (badge +:+ style +:+ "." +:+ "png")), w1)
                  | None => (Raise UnicodeDecodeError, w1)
                  end
              | None =>
                  let url := "https://" +:+ app_name +:+ ".herokuapp.com/"
                             +:+ default "" (args !! "root") in
                  let result := app_is_deployed w url in
                  let w2 := emit (FetchAppDeployed url) w1 in
                  match read_cache_timeout w2 with
                  | (Return ttl, w3) =>
                      match redis_set key result ttl w3 with
                      | (Return _, w4) =>
                          (Return (File BADGE_DIR (result +:+ style +:+ "." +:+ "png")), w4)
                      | (Raise e, w4) => (Raise e, w4)
                      end
                  | (Raise e, w3) => (Raise e, w3)
                  end
              end
          end
      end
  end.
Proof.
  unfold app_deployed. rewrite file_extension_png. unfold style_suffix.
  cbv beta iota zeta delta
    [send_heroku_badge send_from_directory try_call redis_get
     check_if_app_is_deployed getenv log_info log_error raise
     mbind M_bind mret M_ret].
  destruct (args !! "app") as [app_name|]; [|reflexivity].
  destruct (environ w !! "REDIS_URL"); [|reflexivity].
  destruct (redis_get_exn w) as [e|].
  { destruct (is_connection_error (RedisError e)); reflexivity. }
  destruct (read_key _ w) as [cached|].
  { destruct (Py.decode_ascii cached); reflexivity. }
  destruct (read_cache_timeout _) as [[ttl|e] w3]; [|reflexivity].
  destruct (redis_set _ _ _ _) as [[[]|e] w4]; reflexivity.
Qed.

Lemma read_cache_timeout_unfold w :
  read_cache_timeout w =
  match environ w !! "CACHE_TIMEOUT" with
  | None => (Return CACHE_TIMEOUT_DEFAULT, w)
  | Some s =>
      if Py.isdigit s then
        match Py.int s with
        | Some n => (Return n, w)
        | None => (Raise ValueError, w)
        end
      else (Return CACHE_TIMEOUT_DEFAULT,
            emit (LogError "CACHE_TIMEOUT is not a valid int") w)
  end.
Proof.
  unfold read_cache_timeout.
  cbv beta iota zeta delta [getenv_default log_error raise mbind M_bind mret M_ret].
  destruct (environ w !! "CACHE_TIMEOUT") as [s|]; simpl.
  - destruct (Py.isdigit s); [destruct (Py.int s)|]; reflexivity.
  - reflexivity.
Qed.

Lemma decimal_chars_are_digits s :
  Py.all_chars Py.is_decimal_char s = true → Py.all_chars Py.is_digit_char s = true.
Proof.
  induction s as [|c s IH]; cbn [Py.all_chars]; [done|].
  intros [Hc Hs]%andb_true_iff. rewrite (IH Hs).
  unfold Py.is_digit_char. rewrite Hc. reflexivity.
Qed.

Lemma isdecimal_isdigit s : Py.isdecimal s = true → Py.isdigit s = true.
Proof. destruct s as [|c s]; [done|]. apply decimal_chars_are_digits. Qed.

Lemma int_refuses_long_runs s :
  (Py.int_max_str_digits < String.length s)%nat → Py.int s = None.
Proof.
  intros Hlong. unfold Py.int.
  rewrite (proj2 (Nat.leb_gt _ _) Hlong), andb_false_r. reflexivity.
Qed.

Lemma int_accepts s n :
  Py.int s = Some n → Py.isdecimal s = true ∧ n = Py.decimal_value s.
Proof.
  unfold Py.int. destruct (Py.isdecimal s); [|discriminate].
  destruct (String.length s <=? Py.int_max_str_digits)%nat; [|discriminate].
  by intros [= <-].
Qed.

(** With a readable override the timeout is the spec's effective TTL and
    the only possible effect is the log line of the fallback. *)
Lemma read_cache_timeout_readable w :
  timeout_readable (environ w !! "CACHE_TIMEOUT") = true →
  ∃ w', read_cache_timeout w = (Return (effective_ttl (environ w !! "CACHE_TIMEOUT")), w')
        ∧ (w' = w ∨ w' = emit (LogError "CACHE_TIMEOUT is not a valid int") w).
Proof.
  intros Hr. rewrite read_cache_timeout_unfold.
  destruct (environ w !! "CACHE_TIMEOUT") as [s|]; cbn [timeout_readable effective_ttl] in *;
    [|eauto].
  destruct (Py.int s) as [n|] eqn:Hint.
  - apply int_accepts in Hint as [Hdec ->].
    rewrite (isdecimal_isdigit s Hdec), Hdec. eauto.
  - apply negb_true_iff in Hr. rewrite Hr.
    destruct (Py.isdecimal s) eqn:Hdec; [|eauto].
    apply isdecimal_isdigit in Hdec. congruence.
Qed.

Lemma last_test_unfold w :
  last_test w =
  match environ w !! "HEROKU_AUTH_TOKEN" with
  | None =>
      (Return (File BADGE_DIR "error.svg"),
       emit (LogInfo "mandatory HEROKU_AUTH_TOKEN env var not set (see README.md)") w)
  | Some _ =>
  match environ w !! "PIPELINE_ID" with
  | None =>
      (Return (File BADGE_DIR "error.svg"),
       emit (LogInfo "mandatory PIPELINE_ID env var not set (see README.md)") w)
  | Some _ =>
  match environ w !! "REDIS_URL" with
  | None =>
      (Return (File BADGE_DIR "error.svg"),
       emit (LogInfo "mandatory REDIS_URL env var not set (did you provision a redis add-on?)") w)
  | Some _ =>
      let w1 := emit (RedisGet "build_result") w in
      match redis_get_exn w with
      | Some e =>
          if is_connection_error (RedisError e) then
            (Return (File BADGE_DIR "error.svg"),
             emit (LogError "could not connect to redis") w1)
          else (Raise (RedisError e), w1)
      | None =>
          match read_key "build_result" w with
          | Some cached =>
              match Py.decode_ascii cached with
              | Some badge => send_badge_file badge w1
              | None => (Raise UnicodeDecodeError, w1)
              end
          | None =>
              let w2 := emit FetchLastTestRun w1 in
              match last_test_run_status w with
              | None =>
                  (Return (File BADGE_DIR "error.svg"),
                   emit (LogError "could not get result from Heroku") w2)
              | Some result =>
                  if py_in result BADGES_ENUM then
                    match read_cache_timeout w2 with
                    | (Return ttl, w3) =>
                        match redis_set "build_result" result ttl w3 with
                        | (Return _, w4) =>
                            (Return (File BADGE_DIR (result +:+ ".svg")), w4)
                        | (Raise e, w4) => (Raise e, w4)
                        end
                    | (Raise e, w3) => (Raise e, w3)
                    end
                  else
                    (Return (File BADGE_DIR "error.svg"),
                     emit (LogError ("got unexpected build status: " +:+ result)) w2)
              end
          end
      end
  end end end.
Proof.
  unfold last_test.
  cbv beta iota zeta delta
    [try_call redis_get get_last_test_run_status getenv log_info log_error
     raise mbind M_bind mret M_ret].
  case_environ w ltac:(reflexivity).
  destruct (redis_get_exn w) as [e|].
  { destruct (is_connection_error (RedisError e)); reflexivity. }
  destruct (read_key _ w) as [cached|].
  { destruct (Py.decode_ascii cached); reflexivity. }
  cbn [last_test_run_status emit with_trace].
  destruct (last_test_run_status w) as [result|]; [|reflexivity].
  destruct (py_in result BADGES_ENUM) eqn:Hin; simpl; [|reflexivity].
  destruct (read_cache_timeout _) as [[ttl|e] w3]; [|reflexivity].
  destruct (redis_set _ _ _ _) as [[[]|e] w4]; [|reflexivity].
  apply bool_decide_eq_true_1 in Hin.
  apply send_badge_file_member, badges_are_files, Hin.
Qed.

(** ** Missing configuration *)

(** C8: when a mandatory input of the endpoint is absent (the auth token,
    the pipeline id or the redis URL for [/last.svg]; the [app] parameter
    or the redis URL for [/appdeployed]) the handler ends at once with
    its degraded badge: one info line is logged, and no cache lookup,
    cache write or upstream fetch is made. *)
Theorem missing_input_is_terminal r w :
  missing_input r w = true →
  ∃ msg,
    serve r w = (Return (degraded_badge r), emit (LogInfo msg) w)
    ∧ count is_cache_lookup (trace (snd (serve r w))) = count is_cache_lookup (trace w)
    ∧ count is_cache_write (trace (snd (serve r w))) = count is_cache_write (trace w)
    ∧ count is_fetch (trace (snd (serve r w))) = count is_fetch (trace w).
Proof.
  intros Hmiss.
  assert (∃ msg, serve r w = (Return (degraded_badge r), emit (LogInfo msg) w))
    as [msg Hrun].
  { destruct r as [|args]; simpl in *.
    - rewrite last_test_unfold.
      destruct (environ w !! "HEROKU_AUTH_TOKEN"); [|eauto].
      destruct (environ w !! "PIPELINE_ID"); [|eauto].
      destruct (environ w !! "REDIS_URL"); [|eauto].
      discriminate Hmiss.
    - rewrite app_deployed_unfold. cbv zeta.
      destruct (args !! "app"); [|eauto].
      destruct (environ w !! "REDIS_URL"); [|eauto].
      discriminate Hmiss. }
  exists msg. rewrite Hrun. cbn [snd]. rewrite !count_emit. simpl.
  repeat split; lia.
Qed.

Lemma missing_input_is_terminal_witness :
  missing_input LastSvg w_unconfigured = true
  ∧ ∃ msg,
      serve LastSvg w_unconfigured
      = (Return (degraded_badge LastSvg), emit (LogInfo msg) w_unconfigured)
      ∧ count is_cache_lookup (trace (snd (serve LastSvg w_unconfigured)))
        = count is_cache_lookup (trace w_unconfigured)
      ∧ count is_cache_write (trace (snd (serve LastSvg w_unconfigured)))
        = count is_cache_write (trace w_unconfigured)
      ∧ count is_fetch (trace (snd (serve LastSvg w_unconfigured)))
        = count is_fetch (trace w_unconfigured).
Proof.
  split; [reflexivity|].
  apply (missing_input_is_terminal LastSvg w_unconfigured). reflexivity.
Defined.

(** ** An unreachable cache *)

(** C2: when the cache lookup fails with a connection error, the handler
    answers with its degraded badge (the error badge of [/last.svg], the
    failed badge of [/appdeployed]), the upstream check is not called and
    nothing is written. *)
Theorem cache_connection_error_short_circuits r w e :
  redis_get_exn w = Some e →
  is_connection_error (RedisError e) = true →
  fst (serve r w) = Return (degraded_badge r)
  ∧ count is_fetch (trace (snd (serve r w))) = count is_fetch (trace w)
  ∧ count is_cache_write (trace (snd (serve r w))) = count is_cache_write (trace w)
  ∧ store (snd (serve r w)) = store w.
Proof.
  intros Hget Hconn. destruct r as [|args]; simpl.
  - rewrite last_test_unfold.
    repeat (match goal with
            | |- context [match environ w !! ?k with _ => _ end] =>
                destruct (environ w !! k)
            end);
      try (cbn [fst snd]; rewrite !count_emit; simpl; repeat split; lia).
    cbv zeta. rewrite Hget, Hconn. cbn [fst snd].
    rewrite !count_emit. simpl. repeat split; lia.
  - rewrite app_deployed_unfold. cbv zeta.
    destruct (args !! "app");
      [|cbn [fst snd]; rewrite !count_emit; simpl; repeat split; lia].
    destruct (environ w !! "REDIS_URL");
      [|cbn [fst snd]; rewrite !count_emit; simpl; repeat split; lia].
    rewrite Hget, Hconn. cbn [fst snd].
    rewrite !count_emit. simpl. repeat split; lia.
Qed.

Lemma cache_connection_error_short_circuits_witness :
  redis_get_exn w_cache_down = Some ConnectionError
  ∧ fst (serve LastSvg w_cache_down) = Return (degraded_badge LastSvg)
  ∧ count is_fetch (trace (snd (serve LastSvg w_cache_down)))
    = count is_fetch (trace w_cache_down)
  ∧ count is_cache_write (trace (snd (serve LastSvg w_cache_down)))
    = count is_cache_write (trace w_cache_down)
  ∧ store (snd (serve LastSvg w_cache_down)) = store w_cache_down.
Proof.
  split; [reflexivity|].
  apply (cache_connection_error_short_circuits LastSvg w_cache_down ConnectionError);
    reflexivity.
Defined.

(** ** Cache hits *)

Lemma badge_tokens_are_ascii T : T ∈ BADGES_ENUM → Py.decode_ascii T = Some T.
Proof.
  unfold BADGES_ENUM. intros Hin.
  repeat (apply elem_of_cons in Hin as [->|Hin]; [reflexivity|]).
  by apply elem_of_nil in Hin.
Qed.

Lemma badge_tokens_encode T : T ∈ BADGES_ENUM → Py.encode_utf8 T = T.
Proof.
  unfold BADGES_ENUM. intros Hin.
  repeat (apply elem_of_cons in Hin as [->|Hin]; [reflexivity|]).
  by apply elem_of_nil in Hin.
Qed.

Lemma present_inputs_last_svg w :
  missing_input LastSvg w = false →
  is_Some (environ w !! "HEROKU_AUTH_TOKEN")
  ∧ is_Some (environ w !! "PIPELINE_ID")
  ∧ is_Some (environ w !! "REDIS_URL").
Proof.
  simpl. intros H.
  destruct (environ w !! "HEROKU_AUTH_TOKEN"); [|discriminate H].
  destruct (environ w !! "PIPELINE_ID"); [|discriminate H].
  destruct (environ w !! "REDIS_URL"); [|discriminate H].
  eauto.
Qed.

Lemma present_inputs_app_deployed args w :
  missing_input (AppDeployed args) w = false →
  is_Some (args !! "app") ∧ is_Some (environ w !! "REDIS_URL").
Proof.
  simpl. intros H.
  destruct (args !! "app"); [|discriminate H].
  destruct (environ w !! "REDIS_URL"); [|discriminate H].
  eauto.
Qed.

(** What [last_test] does once its configuration is there and the
    lookup went through. *)
Lemma last_test_hit w cached :
  missing_input LastSvg w = false →
  redis_get_exn w = None →
  read_key "build_result" w = Some cached →
  last_test w =
  match Py.decode_ascii cached with
  | Some badge => send_badge_file badge (emit (RedisGet "build_result") w)
  | None => (Raise UnicodeDecodeError, emit (RedisGet "build_result") w)
  end.
Proof.
  intros ([? Ht] & [? Hp] & [? Hu])%present_inputs_last_svg Hget Hread.
  rewrite last_test_unfold, Ht, Hp, Hu. cbv zeta. by rewrite Hget, Hread.
Qed.

(** C3: a valid token [T] found in the cache under the request's key is
    served as the badge; the run consists of the cache lookup alone, so
    the upstream check is not called, nothing is written and the cached
    value is not compared with the enumeration again. *)
Theorem cached_token_served_without_fetch r w key T :
  missing_input r w = false →
  cache_key r = Some key →
  redis_get_exn w = None →
  read_key key w = Some T →
  valid_token r T →
  serve r w = (Return (badge_of r T), emit (RedisGet key) w)
  ∧ count is_fetch (trace (snd (serve r w))) = count is_fetch (trace w).
Proof.
  intros Hcfg Hkey Hget Hread Hvalid.
  assert (serve r w = (Return (badge_of r T), emit (RedisGet key) w)) as Hrun.
  { destruct r as [|args]; simpl in *.
    - injection Hkey as <-.
      rewrite (last_test_hit w T Hcfg Hget Hread).
      rewrite (badge_tokens_are_ascii T Hvalid).
      apply send_badge_file_member, badges_are_files, Hvalid.
    - apply present_inputs_app_deployed in Hcfg as [[app_name Ha] [? Hu]].
      rewrite Ha in Hkey. injection Hkey as <-.
      rewrite app_deployed_unfold, Ha, Hu. cbv zeta.
      by rewrite Hget, Hread, Hvalid. }
  rewrite Hrun. split; [done|]. cbn [snd]. rewrite count_emit. simpl. lia.
Qed.

Lemma cached_token_served_without_fetch_witness :
  serve LastSvg (w_cached "build_result" "succeeded")
  = (Return (File "./badges" "succeeded.svg"),
     emit (RedisGet "build_result") (w_cached "build_result" "succeeded"))
  ∧ count is_fetch (trace (snd (serve LastSvg (w_cached "build_result" "succeeded"))))
    = count is_fetch (trace (w_cached "build_result" "succeeded")).
Proof.
  apply (cached_token_served_without_fetch LastSvg
           (w_cached "build_result" "succeeded") "build_result" "succeeded");
    try reflexivity.
  simpl. unfold BADGES_ENUM. apply elem_of_cons. by left.
Defined.

(** The cached sentinel is served as well: the hit path of [last_test]
    looks at [FILES_ENUM] only, never at [BADGES_ENUM]. *)
Lemma cached_sentinel_is_served :
  fst (last_test (w_cached "build_result" "error"))
  = Return (File "./badges" "error.svg").
Proof. reflexivity. Qed.

(** ** The assets of [/last.svg] *)

Lemma badge_file_known badge :
  badge ∈ FILES_ENUM → File BADGE_DIR (badge +:+ ".svg") ∈ BADGE_FILES.
Proof.
  unfold FILES_ENUM, BADGES_ENUM, BADGE_FILES, BADGE_DIR. simpl. intros Hin.
  repeat (apply elem_of_cons in Hin as [->|Hin];
          [cbv [String.append];
           repeat first [apply list_elem_of_here | apply list_elem_of_further]|]).
  by apply elem_of_nil in Hin.
Qed.

Lemma send_badge_file_known badge w resp w' :
  send_badge_file badge w = (Return resp, w') → resp ∈ BADGE_FILES.
Proof.
  unfold send_badge_file, py_in. case_bool_decide as Hin; [|discriminate].
  intros [= <- _]. by apply badge_file_known.
Qed.

Lemma error_file_known : File BADGE_DIR "error.svg" ∈ BADGE_FILES.
Proof.
  apply (badge_file_known "error"). unfold FILES_ENUM.
  apply elem_of_app. right. apply list_elem_of_here.
Qed.

Lemma read_key_valid w cached :
  build_cache_valid (store w) →
  read_key "build_result" w = Some cached → cached ∈ BADGES_ENUM.
Proof.
  unfold read_key, build_cache_valid. intros Hinv.
  destruct (store w !! "build_result") as [e|] eqn:He; [|discriminate].
  destruct (live (now w) e); [|discriminate].
  intros [= <-]. by apply Hinv.
Qed.

(** C10: every asset [last_test] serves is one of [succeeded.svg],
    [failed.svg], [errored.svg], [error.svg]; a cached byte string that
    decodes to a name outside [FILES_ENUM] makes the handler raise the
    assertion of [send_badge_file] instead of serving anything; and
    while the build key holds validated tokens only, that assertion
    never fails. *)
Theorem last_test_serves_known_files_only :
  (∀ w resp, fst (last_test w) = Return resp → resp ∈ BADGE_FILES)
  ∧ (∀ w cached badge,
       missing_input LastSvg w = false →
       redis_get_exn w = None →
       read_key "build_result" w = Some cached →
       Py.decode_ascii cached = Some badge →
       badge ∉ FILES_ENUM →
       last_test w = (Raise AssertionError, emit (RedisGet "build_result") w))
  ∧ (∀ w, build_cache_valid (store w) → fst (last_test w) ≠ Raise AssertionError).
Proof.
  split; [|split].
  - intros w resp. rewrite last_test_unfold.
    case_environ w ltac:(cbn [fst]; intros [= <-]; apply error_file_known).
    cbv zeta. destruct (redis_get_exn w) as [e|].
    { destruct (is_connection_error _); cbn [fst]; [|discriminate].
      intros [= <-]. apply error_file_known. }
    destruct (read_key _ w) as [cached|].
    { destruct (Py.decode_ascii cached) as [badge|]; [|discriminate].
      destruct (send_badge_file badge _) as [res w'] eqn:Hsend. cbn [fst].
      intros ->. eapply send_badge_file_known, Hsend. }
    destruct (last_test_run_status w) as [result|];
      [|cbn [fst]; intros [= <-]; apply error_file_known].
    unfold py_in. case_bool_decide as Hin;
      [|cbn [fst]; intros [= <-]; apply error_file_known].
    destruct (read_cache_timeout _) as [[ttl|e] w3]; [|discriminate].
    destruct (redis_set _ _ _ _) as [[[]|e] w4]; [|discriminate].
    cbn [fst]. intros [= <-]. apply badge_file_known, badges_are_files, Hin.
  - intros w cached badge Hcfg Hget Hread Hdec Hout.
    rewrite (last_test_hit w cached Hcfg Hget Hread), Hdec.
    by apply send_badge_file_stranger.
  - intros w Hinv. rewrite last_test_unfold.
    case_environ w ltac:(discriminate).
    cbv zeta. destruct (redis_get_exn w) as [e|].
    { destruct (is_connection_error _); discriminate. }
    destruct (read_key _ w) as [cached|] eqn:Hread.
    { pose proof (read_key_valid w cached Hinv Hread) as Hin.
      rewrite (badge_tokens_are_ascii cached Hin).
      rewrite send_badge_file_member by apply badges_are_files, Hin.
      discriminate. }
    destruct (last_test_run_status w) as [result|]; [|discriminate].
    destruct (py_in result BADGES_ENUM); [|discriminate].
    rewrite read_cache_timeout_unfold. unfold redis_set.
    destruct (environ _ !! "CACHE_TIMEOUT") as [override|].
    + destruct (Py.isdigit override); [destruct (Py.int override)|];
        try discriminate; destruct (redis_set_exn _); discriminate.
    + destruct (redis_set_exn _); discriminate.
Qed.

Lemma last_test_serves_known_files_only_witness :
  last_test (w_cached "build_result" "bogus")
  = (Raise AssertionError, emit (RedisGet "build_result") (w_cached "build_result" "bogus")).
Proof.
  apply (proj1 (proj2 last_test_serves_known_files_only)
           (w_cached "build_result" "bogus") "bogus" "bogus");
    try reflexivity.
  unfold FILES_ENUM, BADGES_ENUM. simpl. intros Hin.
  repeat (apply elem_of_cons in Hin as [[=]|Hin]).
  by apply elem_of_nil in Hin.
Defined.

(** ** Cache misses *)

Lemma read_cache_timeout_frame w r w' :
  read_cache_timeout w = (r, w') →
  store w' = store w ∧ now w' = now w ∧ redis_set_exn w' = redis_set_exn w
  ∧ count is_fetch (trace w') = count is_fetch (trace w)
  ∧ count is_cache_write (trace w') = count is_cache_write (trace w).
Proof.
  rewrite read_cache_timeout_unfold.
  destruct (environ w !! "CACHE_TIMEOUT") as [override|].
  - destruct (Py.isdigit override); [destruct (Py.int override)|];
      intros [= <- <-]; rewrite ?count_emit; simpl; repeat split; lia.
  - intros [= <- <-]. done.
Qed.

(** The setting of a successful read-through: [/last.svg] is requested in
    a configured world [w], the lookup goes through and finds nothing,
    and the upstream returns a token [T] of [BADGES_ENUM]. *)
Section ValidFetchOnMiss.

Variables (w : world) (T : string).
Hypothesis Hconfigured : missing_input LastSvg w = false.
Hypothesis Hlookup : redis_get_exn w = None.
Hypothesis Hmiss : read_key "build_result" w = None.
Hypothesis Hstatus : last_test_run_status w = Some T.
Hypothesis Hvalid : T ∈ BADGES_ENUM.

(** What is left of [last_test]: the timeout is read, the token is
    written, the badge is sent. *)
Lemma last_test_miss_valid :
  last_test w =
  match read_cache_timeout (emit FetchLastTestRun (emit (RedisGet "build_result") w)) with
  | (Return ttl, w3) =>
      match redis_set "build_result" T ttl w3 with
      | (Return _, w4) => (Return (File BADGE_DIR (T +:+ ".svg")), w4)
      | (Raise e, w4) => (Raise e, w4)
      end
  | (Raise e, w3) => (Raise e, w3)
  end.
Proof.
  destruct (present_inputs_last_svg w Hconfigured) as ([? Ht] & [? Hp] & [? Hu]).
  rewrite last_test_unfold, Ht, Hp, Hu. cbv zeta.
  rewrite Hlookup, Hmiss, Hstatus. unfold py_in.
  by rewrite bool_decide_eq_true_2.
Qed.

(** The write goes through as well, and [CACHE_TIMEOUT] is absent,
    rejected by [isdigit], or a decimal string that [int] accepts. *)
Hypothesis Hwrite : redis_set_exn w = None.
Hypothesis Htimeout : timeout_readable (environ w !! "CACHE_TIMEOUT") = true.

Lemma last_test_miss_valid_run :
  ∃ w',
    last_test w = (Return (File BADGE_DIR (T +:+ ".svg")), w')
    ∧ environ w' = environ w
    ∧ now w' = now w
    ∧ store w'
      = <["build_result" := Entry T (now w) (effective_ttl (environ w !! "CACHE_TIMEOUT"))]>
          (store w)
    ∧ count is_fetch (trace w') = S (count is_fetch (trace w)).
Proof.
  rewrite last_test_miss_valid.
  set (w2 := emit FetchLastTestRun (emit (RedisGet "build_result") w)).
  destruct (read_cache_timeout_readable w2 Htimeout) as (w3 & Hrun & Hw3).
  change (environ w2) with (environ w) in Hrun. rewrite Hrun.
  unfold redis_set. rewrite (badge_tokens_encode T Hvalid).
  assert (redis_set_exn w3 = None) as -> by (destruct Hw3 as [-> | ->]; exact Hwrite).
  eexists. split; [reflexivity|]. subst w2.
  destruct Hw3 as [-> | ->]; (repeat (split; [reflexivity|]));
    cbn [trace with_store emit with_trace]; rewrite !count_app; simpl; lia.
Qed.

(** C4, as amended: on a cache miss of [/last.svg] where the upstream
    returns a token [T] of [BADGES_ENUM], the cache write raises nothing,
    and [CACHE_TIMEOUT] is absent, rejected by [isdigit], or a decimal
    string that [int] accepts, the handler serves [T.svg], and the store
    then holds [T] under [build_result], written at the time of the
    request with the expiry given by [CACHE_TIMEOUT] when it is such a
    decimal string and 900 seconds otherwise: a lookup made less than
    that many seconds later finds [T].  The upstream was called once. *)
Theorem valid_fetch_is_served_and_cached :
  fst (last_test w) = Return (File BADGE_DIR (T +:+ ".svg"))
  ∧ store (snd (last_test w))
    = <["build_result" := Entry T (now w) (effective_ttl (environ w !! "CACHE_TIMEOUT"))]>
        (store w)
  ∧ (∀ d, (0 ≤ d < effective_ttl (environ w !! "CACHE_TIMEOUT"))%Z →
          read_key "build_result" (advance d (snd (last_test w))) = Some T)
  ∧ count is_fetch (trace (snd (last_test w))) = S (count is_fetch (trace w)).
Proof.
  destruct last_test_miss_valid_run as (w' & -> & _ & Hnow & Hstore & Hcount).
  cbn [fst snd]. repeat split; try done.
  intros d Hd. unfold read_key, advance, later. cbn [store now].
  rewrite Hstore, lookup_insert_eq. unfold live. cbn [set_at ex value].
  rewrite bool_decide_eq_true_2; [done|lia].
Qed.

(** C9, as amended: take two consecutive [/last.svg] requests with a
    working cache, the first one a cache miss on which the upstream
    returns a token [T] of [BADGES_ENUM], the second one less than the
    effective TTL later.  Both serve [T.svg], and the upstream is called
    exactly once over the two requests, whatever it would have answered
    the second time. *)
Theorem second_request_within_ttl_hits_cache d set_exn status deployed :
  0 ≤ d < effective_ttl (environ w !! "CACHE_TIMEOUT") →
  fst (last_test w) = Return (File BADGE_DIR (T +:+ ".svg"))
  ∧ fst (last_test (later d None set_exn status deployed (snd (last_test w))))
    = fst (last_test w)
  ∧ count is_fetch
      (trace (snd (last_test (later d None set_exn status deployed (snd (last_test w))))))
    = S (count is_fetch (trace w)).
Proof.
  intros Hd.
  destruct last_test_miss_valid_run as (w' & -> & Henv & Hnow & Hstore & Hcount).
  cbn [fst snd]. split; [done|].
  set (w2 := later d None set_exn status deployed w').
  assert (missing_input LastSvg w2 = false) as Hcfg2.
  { simpl. rewrite Henv. exact Hconfigured. }
  assert (read_key "build_result" w2 = Some T) as Hread2.
  { unfold read_key, w2, later. cbn [store now]. rewrite Hstore, lookup_insert_eq.
    unfold live. cbn [set_at ex value]. rewrite bool_decide_eq_true_2; [done|lia]. }
  rewrite (last_test_hit w2 T Hcfg2 eq_refl Hread2).
  rewrite (badge_tokens_are_ascii T Hvalid).
  rewrite send_badge_file_member by apply badges_are_files, Hvalid.
  cbn [fst snd]. split; [done|].
  rewrite count_emit. simpl. rewrite Hcount. lia.
Qed.

End ValidFetchOnMiss.

Lemma valid_fetch_is_served_and_cached_witness :
  (fst (last_test w_fresh) = Return (File "./badges" "succeeded.svg")
   ∧ store (snd (last_test w_fresh))
     = <["build_result" := Entry "succeeded" 0 900]> (store w_fresh)
   ∧ (∀ d, (0 ≤ d < 900)%Z →
           read_key "build_result" (advance d (snd (last_test w_fresh))) = Some "succeeded")
   ∧ count is_fetch (trace (snd (last_test w_fresh))) = S (count is_fetch (trace w_fresh)))
  ∧ (fst (last_test w_timeout_60) = Return (File "./badges" "succeeded.svg")
     ∧ store (snd (last_test w_timeout_60))
       = <["build_result" := Entry "succeeded" 0 60]> (store w_timeout_60)
     ∧ (∀ d, (0 ≤ d < 60)%Z →
             read_key "build_result" (advance d (snd (last_test w_timeout_60)))
             = Some "succeeded")
     ∧ count is_fetch (trace (snd (last_test w_timeout_60)))
       = S (count is_fetch (trace w_timeout_60))).
Proof.
  split.
  - apply (valid_fetch_is_served_and_cached w_fresh "succeeded"); try reflexivity.
    unfold BADGES_ENUM. apply list_elem_of_here.
  - apply (valid_fetch_is_served_and_cached w_timeout_60 "succeeded"); try reflexivity.
    unfold BADGES_ENUM. apply list_elem_of_here.
Defined.

(** The claim without the amendment fails on cache misses with a valid
    token.  With [CACHE_TIMEOUT=0] the handler passes [ex=0], the server
    refuses the write, and the exception leaves the handler: no badge,
    nothing under [build_result].  With [CACHE_TIMEOUT] the superscript
    two, [int] raises before the write is attempted. *)
Lemma valid_fetch_is_not_always_cached :
  (missing_input LastSvg w_timeout_zero = false
   ∧ read_key "build_result" w_timeout_zero = None
   ∧ last_test_run_status w_timeout_zero = Some "succeeded"
   ∧ fst (last_test w_timeout_zero) = Raise (RedisError ResponseError)
   ∧ trace (snd (last_test w_timeout_zero))
     = [RedisGet "build_result"; FetchLastTestRun; RedisSet "build_result" "succeeded" 0]
   ∧ store (snd (last_test w_timeout_zero)) !! "build_result" = None)
  ∧ (missing_input LastSvg w_timeout_superscript = false
     ∧ read_key "build_result" w_timeout_superscript = None
     ∧ last_test_run_status w_timeout_superscript = Some "succeeded"
     ∧ fst (last_test w_timeout_superscript) = Raise ValueError
     ∧ trace (snd (last_test w_timeout_superscript))
       = [RedisGet "build_result"; FetchLastTestRun]
     ∧ store (snd (last_test w_timeout_superscript)) !! "build_result" = None).
Proof. repeat split; reflexivity. Qed.

(** ** Two requests in a row *)

Lemma second_request_within_ttl_hits_cache_witness :
  fst (last_test w_fresh) = Return (File "./badges" "succeeded.svg")
  ∧ fst (last_test (later 899 None None (Some "failed") (deployed_always "heroku-failed")
                      (snd (last_test w_fresh))))
    = fst (last_test w_fresh)
  ∧ count is_fetch
      (trace (snd (last_test (later 899 None None (Some "failed")
                                (deployed_always "heroku-failed")
                                (snd (last_test w_fresh))))))
    = S (count is_fetch (trace w_fresh)).
Proof.
  refine (second_request_within_ttl_hits_cache w_fresh "succeeded" _ _ _ _ _ _ _
            899 None (Some "failed") (deployed_always "heroku-failed") _);
    try reflexivity.
  - unfold BADGES_ENUM. apply list_elem_of_here.
  - split; [discriminate 1 | reflexivity].
Defined.

(** The claim without the amendment fails: when the upstream is down on
    the first request and back on the second, one second later, the two
    badges differ and the upstream is called twice. *)
Lemma failed_fetch_is_not_cached :
  fst (last_test w_upstream_down) = Return (File "./badges" "error.svg")
  ∧ fst (last_test (later 1 None None (Some "succeeded") (deployed_always "heroku-succeeded")
                      (snd (last_test w_upstream_down))))
    = Return (File "./badges" "succeeded.svg")
  ∧ count is_fetch (trace w_upstream_down) = 0%nat
  ∧ count is_fetch
      (trace (snd (last_test (later 1 None None (Some "succeeded")
                                (deployed_always "heroku-succeeded")
                                (snd (last_test w_upstream_down))))))
    = 2%nat.
Proof. repeat split; reflexivity. Qed.

(** ** What reaches the cache *)

Lemma deployed_key_is_not_build_key app_name :
  app_name +:+ "_deployed" ≠ "build_result".
Proof.
  do 13 (destruct app_name as [|? app_name]; [cbv [String.append]; discriminate|]).
  cbv [String.append]. discriminate.
Qed.

Lemma redis_set_store key val ttl w :
  store (snd (redis_set key val ttl w)) = store w
  ∨ store (snd (redis_set key val ttl w))
    = <[key := Entry (Py.encode_utf8 val) (now w) ttl]> (store w).
Proof. unfold redis_set. destruct (redis_set_exn w); [left|right]; reflexivity. Qed.

(** The store after [last_test]: untouched, or a token of [BADGES_ENUM]
    written under the build key. *)
Lemma last_test_store w :
  store (snd (last_test w)) = store w
  ∨ ∃ T ttl, T ∈ BADGES_ENUM
      ∧ store (snd (last_test w)) = <["build_result" := Entry T (now w) ttl]> (store w).
Proof.
  rewrite last_test_unfold.
  case_environ w ltac:(by left).
  cbv zeta. destruct (redis_get_exn w) as [e|].
  { destruct (is_connection_error _); by left. }
  destruct (read_key _ w) as [cached|].
  { destruct (Py.decode_ascii cached) as [badge|]; [|by left].
    destruct (decide (badge ∈ FILES_ENUM));
      [rewrite send_badge_file_member by done
      |rewrite send_badge_file_stranger by done]; by left. }
  destruct (last_test_run_status w) as [result|]; [|by left].
  unfold py_in. case_bool_decide as Hin; [|by left].
  destruct (read_cache_timeout _) as [[ttl|e] w3] eqn:Hto; [|
    apply read_cache_timeout_frame in Hto as (Hs & _); by left].
  apply read_cache_timeout_frame in Hto as (Hs & Hn & _).
  destruct (redis_set_store "build_result" result ttl w3) as [Hset|Hset];
    destruct (redis_set _ _ _ _) as [[[]|e] w4]; cbn [snd] in *;
    rewrite Hset, Hs, ?Hn, ?(badge_tokens_encode result Hin); eauto 10.
Qed.

(** The store after [app_deployed]: untouched, or the answer of the
    deploy check, whatever it is, written under the key of the app. *)
Lemma app_deployed_store args w :
  store (snd (app_deployed args w)) = store w
  ∨ ∃ app_name ttl url, args !! "app" = Some app_name
      ∧ store (snd (app_deployed args w))
        = <[app_name +:+ "_deployed"
              := Entry (Py.encode_utf8 (app_is_deployed w url)) (now w) ttl]> (store w).
Proof.
  rewrite app_deployed_unfold. cbv zeta.
  destruct (args !! "app") as [app_name|]; [|by left].
  destruct (environ w !! "REDIS_URL"); [|by left].
  destruct (redis_get_exn w) as [e|].
  { destruct (is_connection_error _); by left. }
  destruct (read_key _ w) as [cached|].
  { destruct (Py.decode_ascii cached); by left. }
  destruct (read_cache_timeout _) as [[ttl|e] w3] eqn:Hto; [|
    apply read_cache_timeout_frame in Hto as (Hs & _); by left].
  apply read_cache_timeout_frame in Hto as (Hs & Hn & _).
  match goal with
  | |- context [redis_set ?k ?v ttl w3] =>
      destruct (redis_set_store k v ttl w3) as [Hset|Hset];
      destruct (redis_set k v ttl w3) as [[[]|e] w4]
  end; cbn [snd] in *; rewrite Hset, Hs, ?Hn; eauto 10.
Qed.

(** C1, as amended: on [/last.svg], when the upstream returns nothing or
    a value outside [BADGES_ENUM], the handler writes nothing to the
    cache and, if the upstream was called at all, serves the error
    badge; and whichever endpoint is requested, a build key that holds
    tokens of [BADGES_ENUM] only still does so afterwards.
    ([/appdeployed] has no enumeration and is not covered.) *)
Theorem last_test_caches_validated_tokens_only :
  (∀ w, invalid_status (last_test_run_status w) = true →
        store (snd (last_test w)) = store w
        ∧ count is_cache_write (trace (snd (last_test w))) = count is_cache_write (trace w)
        ∧ (count is_fetch (trace (snd (last_test w))) ≠ count is_fetch (trace w) →
           fst (last_test w) = Return (File BADGE_DIR "error.svg")))
  ∧ (∀ r w, build_cache_valid (store w) → build_cache_valid (store (snd (serve r w)))).
Proof.
  split.
  - intros w Hbad. rewrite last_test_unfold.
    case_environ w
      ltac:(cbn [fst snd]; rewrite !count_emit; simpl; repeat split; lia).
    cbv zeta. destruct (redis_get_exn w) as [e|].
    { destruct (is_connection_error _); cbn [fst snd]; rewrite !count_emit; simpl;
        repeat split; lia. }
    destruct (read_key _ w) as [cached|].
    { destruct (Py.decode_ascii cached) as [badge|].
      - destruct (decide (badge ∈ FILES_ENUM));
          [rewrite send_badge_file_member by done
          |rewrite send_badge_file_stranger by done];
          cbn [fst snd]; rewrite !count_emit; simpl; repeat split; lia.
      - cbn [fst snd]; rewrite !count_emit; simpl; repeat split; lia. }
    destruct (last_test_run_status w) as [result|]; simpl in Hbad.
    + apply negb_true_iff in Hbad. rewrite Hbad.
      cbn [fst snd]. rewrite !count_emit. simpl. repeat split; lia.
    + cbn [fst snd]. rewrite !count_emit. simpl. repeat split; lia.
  - intros r w Hinv e. destruct r as [|args]; simpl.
    + destruct (last_test_store w) as [-> | (T & ttl & Hin & ->)]; [apply Hinv|].
      rewrite lookup_insert_eq. by intros [= <-].
    + destruct (app_deployed_store args w) as [-> | (a & ttl & url & _ & ->)]; [apply Hinv|].
      rewrite lookup_insert_ne by apply deployed_key_is_not_build_key. apply Hinv.
Qed.

Lemma last_test_caches_validated_tokens_only_witness :
  store (snd (last_test w_upstream_down)) = store w_upstream_down
  ∧ count is_cache_write (trace (snd (last_test w_upstream_down)))
    = count is_cache_write (trace w_upstream_down)
  ∧ (count is_fetch (trace (snd (last_test w_upstream_down)))
     ≠ count is_fetch (trace w_upstream_down) →
     fst (last_test w_upstream_down) = Return (File BADGE_DIR "error.svg")).
Proof.
  apply (proj1 last_test_caches_validated_tokens_only w_upstream_down). reflexivity.
Defined.

(** The claim without the amendment fails on [/appdeployed]: the deploy
    check answers ["error"], which is none of the deploy tokens; the
    handler serves [error.png], not its failed badge, and the store now
    holds ["error"] under the key of the app. *)
Lemma app_deployed_caches_unvalidated :
  ("error" ∉ DEPLOY_ENUM)
  ∧ fst (app_deployed (args_app "shop") w_deploy_check_odd)
    = Return (File "./badges" "error.png")
  ∧ fst (app_deployed (args_app "shop") w_deploy_check_odd)
    ≠ Return (degraded_badge (AppDeployed (args_app "shop")))
  ∧ store (snd (app_deployed (args_app "shop") w_deploy_check_odd)) !! "shop_deployed"
    = Some (Entry "error" 0 900)
  ∧ store w_deploy_check_odd !! "shop_deployed" = None.
Proof.
  split.
  { unfold DEPLOY_ENUM. intros Hin.
    repeat (apply elem_of_cons in Hin as [[=]|Hin]). by apply elem_of_nil in Hin. }
  repeat split; try reflexivity. vm_compute. discriminate.
Qed.

(** ** Exceptions that leave a handler *)

(** C5: the cache write is not guarded.  With everything configured, a
    lookup that goes through and finds nothing, and an upstream that
    answers [succeeded], a connection error of [r.set] leaves either
    handler as an exception after the upstream call: no badge is
    returned although a valid one was fetched.  The same error of
    [r.get] is caught and answered with the error badge. *)
Theorem cache_set_failure_escapes :
  fst (last_test w_set_fails) = Raise (RedisError ConnectionError)
  ∧ fst (app_deployed (args_app "shop") w_set_fails) = Raise (RedisError ConnectionError)
  ∧ trace (snd (last_test w_set_fails))
    = [RedisGet "build_result"; FetchLastTestRun; RedisSet "build_result" "succeeded" 900]
  ∧ fst (last_test w_cache_down) = Return (File "./badges" "error.svg").
Proof. repeat split; reflexivity. Qed.

(** ** The [svg] parameter *)

(** Whatever the query string says, [app_deployed] serves a [.png]. *)
Lemma app_deployed_serves_png args w resp :
  fst (app_deployed args w) = Return resp →
  ∃ badge style, resp = File BADGE_DIR (badge +:+ style +:+ "." +:+ "png").
Proof.
  rewrite app_deployed_unfold. cbv zeta.
  destruct (args !! "app") as [app_name|];
    [|intros [= <-]; by do 2 eexists].
  destruct (environ w !! "REDIS_URL");
    [|intros [= <-]; by do 2 eexists].
  destruct (redis_get_exn w) as [e|].
  { destruct (is_connection_error _); [intros [= <-]; by do 2 eexists|discriminate]. }
  destruct (read_key _ w) as [cached|].
  { destruct (Py.decode_ascii cached); [intros [= <-]; by do 2 eexists|discriminate]. }
  destruct (read_cache_timeout _) as [[ttl|e] w3]; [|discriminate].
  destruct (redis_set _ _ _ _) as [[[]|e] w4]; [|discriminate].
  intros [= <-]. by do 2 eexists.
Qed.

(** C6: [/appdeployed?app=shop&svg=1] is answered with a [.png] asset,
    on a cache miss as on a cache hit: the text ["1"] of the query
    string is compared with the integer [1] and never equals it. *)
Theorem svg_parameter_one_serves_png :
  Py.eq_int (Py.Str "1") 1 = false
  ∧ fst (app_deployed (<["svg" := "1"]> (args_app "shop")) w_fresh)
    = Return (File "./badges" "heroku-succeeded.png")
  ∧ fst (app_deployed (<["svg" := "1"]> (args_app "shop"))
           (w_cached "shop_deployed" "heroku-succeeded"))
    = Return (File "./badges" "heroku-succeeded.png").
Proof. repeat split; reflexivity. Qed.

(** ** A malformed [CACHE_TIMEOUT] *)

(** A value that [isdigit] rejects is reported and replaced by the
    default; the request goes on. *)
Lemma rejected_timeout_falls_back w override :
  environ w !! "CACHE_TIMEOUT" = Some override →
  Py.isdigit override = false →
  read_cache_timeout w
  = (Return CACHE_TIMEOUT_DEFAULT, emit (LogError "CACHE_TIMEOUT is not a valid int") w).
Proof. intros Henv Hno. by rewrite read_cache_timeout_unfold, Henv, Hno. Qed.

Lemma timeout_abc_falls_back :
  fst (last_test w_timeout_abc) = Return (File "./badges" "succeeded.svg")
  ∧ store (snd (last_test w_timeout_abc)) !! "build_result"
    = Some (Entry "succeeded" 0 900)
  ∧ count is_log_error (trace (snd (last_test w_timeout_abc))) = 1%nat.
Proof. repeat split; reflexivity. Qed.

(** C7: with [CACHE_TIMEOUT] set to the superscript two, which is not a
    decimal string, [isdigit] lets the value through and [int] raises:
    both handlers end in a [ValueError] after the upstream call, no
    config error is logged and nothing is cached. *)
Theorem superscript_timeout_aborts :
  Py.isdecimal superscript_two = false
  ∧ Py.isdigit superscript_two = true
  ∧ fst (last_test w_timeout_superscript) = Raise ValueError
  ∧ fst (app_deployed (args_app "shop") w_timeout_superscript) = Raise ValueError
  ∧ count is_log_error (trace (snd (last_test w_timeout_superscript))) = 0%nat
  ∧ count is_fetch (trace (snd (last_test w_timeout_superscript))) = 1%nat
  ∧ store (snd (last_test w_timeout_superscript)) = store w_timeout_superscript.
Proof. repeat split; reflexivity. Qed.

(** * Further properties of the handlers *)

(** ** The cache timeout *)

Lemma decimal_value_from_nonneg (s : string) (acc : Z) :
  Py.all_chars Py.is_decimal_char s = true → (0 ≤ acc)%Z → (0 ≤ Py.decimal_value_from acc s)%Z.
Proof.
  revert acc.
  induction s as [|c s IH]; cbn [Py.all_chars Py.decimal_value_from]; intros acc; [done|].
  intros [Hc Hs]%andb_true_iff Hacc. apply IH; [done|].
  unfold Py.is_decimal_char in Hc. apply andb_true_iff in Hc as [Hlo _].
  apply Nat.leb_le in Hlo. lia.
Qed.

Lemma decimal_value_nonneg s : Py.isdecimal s = true → (0 ≤ Py.decimal_value s)%Z.
Proof.
  destruct s as [|c s]; [done|]. intros Hs.
  by apply decimal_value_from_nonneg.
Qed.

Lemma effective_ttl_nonneg override : (0 ≤ effective_ttl override)%Z.
Proof.
  destruct override as [s|]; simpl; [|done].
  destruct (Py.isdecimal s) eqn:Hs; [by apply decimal_value_nonneg|done].
Qed.

(** A reading that returns: the value is the effective TTL, and at most
    the error line of the fallback is logged. *)
Lemma read_cache_timeout_returns w ttl w' :
  read_cache_timeout w = (Return ttl, w') →
  ttl = effective_ttl (environ w !! "CACHE_TIMEOUT")
  ∧ (w' = w ∨ w' = emit (LogError "CACHE_TIMEOUT is not a valid int") w).
Proof.
  rewrite read_cache_timeout_unfold. intros Hrun.
  destruct (environ w !! "CACHE_TIMEOUT") as [s|]; simpl.
  - destruct (Py.isdigit s) eqn:Hdigit.
    + destruct (Py.int s) as [n|] eqn:Hint; [|discriminate].
      apply int_accepts in Hint as [-> ->].
      injection Hrun as <- <-. auto.
    + injection Hrun as <- <-.
      destruct (Py.isdecimal s) eqn:Hdec; [|auto].
      apply isdecimal_isdigit in Hdec. congruence.
  - injection Hrun as <- <-. auto.
Qed.

(** X1: whenever the timeout is read without an exception, it is the
    base-10 value of [CACHE_TIMEOUT] if that is a decimal string and 900
    otherwise, it is never negative, and the only trace of the reading
    is the error line of the fallback. *)
Theorem cache_timeout_is_effective_ttl w ttl w' :
  read_cache_timeout w = (Return ttl, w') →
  ttl = effective_ttl (environ w !! "CACHE_TIMEOUT")
  ∧ (0 ≤ ttl)%Z
  ∧ (w' = w ∨ w' = emit (LogError "CACHE_TIMEOUT is not a valid int") w).
Proof.
  intros [-> Hw']%read_cache_timeout_returns.
  split; [reflexivity|]. split; [|exact Hw'].
  apply effective_ttl_nonneg.
Qed.

Lemma cache_timeout_is_effective_ttl_witness :
  read_cache_timeout w_timeout_abc
  = (Return 900, emit (LogError "CACHE_TIMEOUT is not a valid int") w_timeout_abc)
  ∧ 900 = effective_ttl (environ w_timeout_abc !! "CACHE_TIMEOUT")
  ∧ (0 ≤ 900)%Z
  ∧ (emit (LogError "CACHE_TIMEOUT is not a valid int") w_timeout_abc = w_timeout_abc
     ∨ emit (LogError "CACHE_TIMEOUT is not a valid int") w_timeout_abc
       = emit (LogError "CACHE_TIMEOUT is not a valid int") w_timeout_abc).
Proof.
  split; [reflexivity|].
  apply (cache_timeout_is_effective_ttl w_timeout_abc 900). reflexivity.
Defined.

(** The only exception of the reading is the [ValueError] of [int], and
    the world is then as before. *)
Lemma read_cache_timeout_raises w e w' :
  read_cache_timeout w = (Raise e, w') → e = ValueError ∧ w' = w.
Proof.
  rewrite read_cache_timeout_unfold.
  destruct (environ w !! "CACHE_TIMEOUT") as [s|]; [|discriminate].
  destruct (Py.isdigit s); [|discriminate].
  destruct (Py.int s); [discriminate|]. by intros [= <- <-].
Qed.

(** ** The order of calls *)

Lemma strip_logs_app t1 t2 : strip_logs (t1 ++ t2) = (strip_logs t1 ++ strip_logs t2)%list.
Proof.
  induction t1 as [|e t1 IH]; simpl; [done|].
  destruct (is_log e); simpl; by rewrite IH.
Qed.

(** The tail of a miss, common to both handlers: the timeout is read and
    the value is written.  Whatever happens, the trace grows by log
    lines and at most one write, of a non-negative expiry. *)
Lemma timeout_then_set_trace {A} key val (k : world → result A * world) w :
  (∀ w4, trace (snd (k w4)) = trace w4) →
  ∃ new,
    trace (snd (match read_cache_timeout w with
                | (Return ttl, w3) =>
                    match redis_set key val ttl w3 with
                    | (Return _, w4) => k w4
                    | (Raise e, w4) => (Raise e, w4)
                    end
                | (Raise e, w3) => (Raise e, w3)
                end))
    = (trace w ++ new)%list
    ∧ (strip_logs new = []
       ∨ ∃ bytes ex, (0 ≤ ex)%Z ∧ strip_logs new = [RedisSet key bytes ex]).
Proof.
  intros Hk.
  destruct (read_cache_timeout w) as [[ttl|e] w3] eqn:Hto.
  - apply read_cache_timeout_returns in Hto as (-> & Hw3).
    pose proof (effective_ttl_nonneg (environ w !! "CACHE_TIMEOUT")) as Hpos.
    unfold redis_set.
    destruct (redis_set_exn w3); cbn [snd]; rewrite ?Hk;
      destruct Hw3 as [-> | ->]; cbn [trace with_store emit with_trace];
      rewrite <- ?app_assoc; (eexists; split; [reflexivity|]);
      right; do 2 eexists; (split; [exact Hpos|reflexivity]).
  - apply read_cache_timeout_raises in Hto as [-> ->].
    exists []. rewrite app_nil_r. by split; [|left].
Qed.

(** X2: the calls a request makes to the cache and to the upstream are,
    in this order, nothing at all, or the lookup of the endpoint's key,
    or the lookup and the upstream call, or the lookup, the upstream
    call and one write under the same key with a non-negative expiry.
    So there is at most one call of each kind, never a write without a
    fetch, never a fetch without a lookup before it. *)
Theorem request_call_protocol r w :
  ∃ new,
    trace (snd (serve r w)) = (trace w ++ new)%list
    ∧ (strip_logs new = []
       ∨ ∃ key, cache_key r = Some key
          ∧ (strip_logs new = [RedisGet key]
             ∨ ∃ fetch, fetch_call r = Some fetch
                ∧ (strip_logs new = [RedisGet key; fetch]
                   ∨ ∃ bytes ex, (0 ≤ ex)%Z
                      ∧ strip_logs new = [RedisGet key; fetch; RedisSet key bytes ex]))).
Proof.
  destruct r as [|args]; cbn [serve cache_key fetch_call].
  - rewrite last_test_unfold.
    case_environ w ltac:(eexists [_]; split; [reflexivity|by left]).
    cbv zeta. destruct (redis_get_exn w) as [e|].
    { destruct (is_connection_error _); cbn [snd trace emit with_trace];
        rewrite <- ?app_assoc; (eexists; split; [reflexivity|]);
        right; eexists; (split; [reflexivity|]); by left. }
    destruct (read_key _ w) as [cached|].
    { assert (∀ badge w1, trace (snd (send_badge_file badge w1)) = trace w1) as Hsend.
      { intros badge w1. unfold send_badge_file. by destruct (py_in badge FILES_ENUM). }
      destruct (Py.decode_ascii cached) as [badge|]; rewrite ?Hsend;
        (eexists [_]; split; [reflexivity|]);
        right; eexists; (split; [reflexivity|]); by left. }
    destruct (last_test_run_status w) as [result|].
    + destruct (py_in result BADGES_ENUM).
      * match goal with
        | |- context [read_cache_timeout ?w2] =>
            destruct (timeout_then_set_trace "build_result" result
                        (λ w4, (Return (File BADGE_DIR (result +:+ ".svg")), w4)) w2)
              as (new & -> & Hnew); [done|]
        end.
        cbn [trace emit with_trace]. rewrite <- !app_assoc.
        eexists; split; [reflexivity|]. rewrite !strip_logs_app. simpl.
        right; eexists; (split; [reflexivity|]); right; eexists; (split; [reflexivity|]).
        destruct Hnew as [-> | (bytes & ex & Hpos & ->)]; [by left|].
        right. by exists bytes, ex.
      * cbn [snd trace emit with_trace]. rewrite <- !app_assoc.
        eexists; split; [reflexivity|].
        right; eexists; (split; [reflexivity|]); right; eexists; (split; [reflexivity|]).
        by left.
    + cbn [snd trace emit with_trace]. rewrite <- !app_assoc.
      eexists; split; [reflexivity|].
      right; eexists; (split; [reflexivity|]); right; eexists; (split; [reflexivity|]).
      by left.
  - rewrite app_deployed_unfold. cbv zeta.
    destruct (args !! "app") as [app_name|];
      [|eexists [_]; split; [reflexivity|by left]].
    destruct (environ w !! "REDIS_URL");
      [|eexists [_]; split; [reflexivity|by left]].
    cbn [fmap option_fmap option_map].
    destruct (redis_get_exn w) as [e|].
    { destruct (is_connection_error _); cbn [snd trace emit with_trace];
        rewrite <- ?app_assoc; (eexists; split; [reflexivity|]);
        right; eexists; (split; [reflexivity|]); by left. }
    destruct (read_key _ w) as [cached|].
    { destruct (Py.decode_ascii cached) as [badge|];
        (eexists [_]; split; [reflexivity|]);
        right; eexists; (split; [reflexivity|]); by left. }
    match goal with
    | |- context [redis_set ?key ?val _ _] =>
        match goal with
        | |- context [read_cache_timeout ?w2] =>
            destruct (timeout_then_set_trace key val
                        (λ w4, (Return (File BADGE_DIR
                                   (val +:+ style_suffix args +:+ "." +:+ "png")), w4)) w2)
              as (new & -> & Hnew); [done|]
        end
    end.
    cbn [trace emit with_trace]. rewrite <- !app_assoc.
    eexists; split; [reflexivity|]. rewrite !strip_logs_app. simpl.
    right; eexists; (split; [reflexivity|]); right; eexists; (split; [reflexivity|]).
    destruct Hnew as [-> | (bytes & ex & Hpos & ->)]; [by left|].
    right. by exists bytes, ex.
Qed.

(** ** When the upstream is called *)

Lemma timeout_then_set_fetches {A} key val (k : world → result A * world) w :
  (∀ w4, trace (snd (k w4)) = trace w4) →
  count is_fetch
    (trace (snd (match read_cache_timeout w with
                 | (Return ttl, w3) =>
                     match redis_set key val ttl w3 with
                     | (Return _, w4) => k w4
                     | (Raise e, w4) => (Raise e, w4)
                     end
                 | (Raise e, w3) => (Raise e, w3)
                 end)))
  = count is_fetch (trace w).
Proof.
  intros Hk.
  destruct (timeout_then_set_trace key val k w Hk) as (new & -> & Hnew).
  rewrite count_app.
  assert (∀ t, count is_fetch t = count is_fetch (strip_logs t)) as Hstrip.
  { induction t as [|e t IH]; simpl; [done|]. destruct e; simpl; by rewrite IH. }
  rewrite (Hstrip new).
  destruct Hnew as [-> | (bytes & ex & _ & ->)]; simpl; lia.
Qed.

Lemma fetch_count_after_request r w :
  count is_fetch (trace (snd (serve r w)))
  = (count is_fetch (trace w) + if fetch_needed r w then 1 else 0)%nat.
Proof.
  unfold fetch_needed. destruct r as [|args]; cbn [serve cache_key missing_input].
  - rewrite last_test_unfold.
    case_environ w ltac:(cbn [snd]; rewrite count_emit; simpl; lia).
    cbv zeta. destruct (redis_get_exn w) as [e|].
    { destruct (is_connection_error _); cbn [snd]; rewrite !count_emit; simpl; lia. }
    destruct (read_key _ w) as [cached|].
    { destruct (Py.decode_ascii cached) as [badge|].
      - destruct (decide (badge ∈ FILES_ENUM));
          [rewrite send_badge_file_member by done
          |rewrite send_badge_file_stranger by done];
          cbn [snd]; rewrite count_emit; simpl; lia.
      - cbn [snd]; rewrite count_emit; simpl; lia. }
    destruct (last_test_run_status w) as [result|].
    + destruct (py_in result BADGES_ENUM).
      * match goal with
        | |- context [read_cache_timeout ?w2] =>
            rewrite (timeout_then_set_fetches "build_result" result
                       (λ w4, (Return (File BADGE_DIR (result +:+ ".svg")), w4)) w2)
              by done
        end.
        rewrite !count_emit. simpl. lia.
      * cbn [snd]. rewrite !count_emit. simpl. lia.
    + cbn [snd]. rewrite !count_emit. simpl. lia.
  - rewrite app_deployed_unfold. cbv zeta.
    destruct (args !! "app") as [app_name|];
      [|cbn [snd]; rewrite count_emit; simpl; lia].
    destruct (environ w !! "REDIS_URL");
      [|cbn [snd]; rewrite count_emit; simpl; lia].
    cbn [fmap option_fmap option_map].
    destruct (redis_get_exn w) as [e|].
    { destruct (is_connection_error _); cbn [snd]; rewrite !count_emit; simpl; lia. }
    destruct (read_key _ w) as [cached|].
    { destruct (Py.decode_ascii cached); cbn [snd]; rewrite count_emit; simpl; lia. }
    match goal with
    | |- context [redis_set ?key ?val _ _] =>
        match goal with
        | |- context [read_cache_timeout ?w2] =>
            rewrite (timeout_then_set_fetches key val
                       (λ w4, (Return (File BADGE_DIR
                                  (val +:+ style_suffix args +:+ "." +:+ "png")), w4)) w2)
              by done
        end
    end.
    rewrite !count_emit. simpl. lia.
Qed.

(** X3: a request calls the upstream exactly once when nothing mandatory
    is missing, the lookup raises nothing and finds no live entry under
    the endpoint's key; in every other case it does not call it. *)
Theorem upstream_called_exactly_on_miss r w :
  (fetch_needed r w = true →
   count is_fetch (trace (snd (serve r w))) = S (count is_fetch (trace w)))
  ∧ (fetch_needed r w = false →
     count is_fetch (trace (snd (serve r w))) = count is_fetch (trace w)).
Proof.
  pose proof (fetch_count_after_request r w) as Hcount.
  split; intros Hneed; rewrite Hneed in Hcount; rewrite Hcount; lia.
Qed.

Lemma upstream_called_exactly_on_miss_witness :
  count is_fetch (trace (snd (serve LastSvg w_fresh))) = S (count is_fetch (trace w_fresh))
  ∧ count is_fetch (trace (snd (serve LastSvg (w_cached "build_result" "failed"))))
    = count is_fetch (trace (w_cached "build_result" "failed")).
Proof.
  split.
  - apply (proj1 (upstream_called_exactly_on_miss LastSvg w_fresh)). reflexivity.
  - apply (proj2 (upstream_called_exactly_on_miss LastSvg
                    (w_cached "build_result" "failed"))).
    reflexivity.
Defined.

(** ** What a request leaves alone *)

(** X4: a request that does not go to the upstream leaves the store as it
    is (a hit does not renew the entry), and a request that does changes
    at most the entry under its own key. *)
Theorem store_changes_only_under_own_key r w :
  (fetch_needed r w = false → store (snd (serve r w)) = store w)
  ∧ (∀ key, cache_key r ≠ Some key → store (snd (serve r w)) !! key = store w !! key).
Proof.
  split.
  - unfold fetch_needed. destruct r as [|args]; cbn [serve cache_key missing_input].
    + rewrite last_test_unfold. case_environ w ltac:(done).
      cbv zeta. destruct (redis_get_exn w) as [e|].
      { by destruct (is_connection_error _). }
      destruct (read_key _ w) as [cached|]; [|discriminate].
      intros _. destruct (Py.decode_ascii cached) as [badge|]; [|done].
      unfold send_badge_file. by destruct (py_in badge FILES_ENUM).
    + rewrite app_deployed_unfold. cbv zeta.
      destruct (args !! "app") as [app_name|]; [|done].
      destruct (environ w !! "REDIS_URL"); [|done].
      cbn [fmap option_fmap option_map].
      destruct (redis_get_exn w) as [e|].
      { by destruct (is_connection_error _). }
      destruct (read_key _ w) as [cached|]; [|discriminate].
      intros _. by destruct (Py.decode_ascii cached).
  - intros key Hkey. destruct r as [|args]; cbn [serve cache_key] in *.
    + destruct (last_test_store w) as [-> | (T & ttl & _ & ->)]; [done|].
      apply lookup_insert_ne. congruence.
    + destruct (app_deployed_store args w) as [-> | (a & ttl & url & Ha & ->)]; [done|].
      rewrite Ha in Hkey. apply lookup_insert_ne. cbn in Hkey. congruence.
Qed.

Lemma store_changes_only_under_own_key_witness :
  store (snd (serve LastSvg (w_cached "build_result" "succeeded")))
  = store (w_cached "build_result" "succeeded")
  ∧ store (snd (serve (AppDeployed (args_app "shop")) w_fresh)) !! "build_result"
    = store w_fresh !! "build_result".
Proof.
  split.
  - apply (proj1 (store_changes_only_under_own_key LastSvg
                    (w_cached "build_result" "succeeded"))).
    reflexivity.
  - apply (proj2 (store_changes_only_under_own_key (AppDeployed (args_app "shop")) w_fresh)).
    vm_compute. discriminate.
Defined.

Lemma list_ascii_of_string_app s1 s2 :
  list_ascii_of_string (s1 +:+ s2)
  = (list_ascii_of_string s1 ++ list_ascii_of_string s2)%list.
Proof.
  induction s1 as [|c s1 IH]; cbv [String.append]; fold String.append; simpl; [done|].
  by rewrite IH.
Qed.

Lemma append_cancel_r s1 s2 suffix : s1 +:+ suffix = s2 +:+ suffix → s1 = s2.
Proof.
  intros Heq. apply (f_equal list_ascii_of_string) in Heq.
  rewrite !list_ascii_of_string_app in Heq.
  apply app_inv_tail in Heq.
  apply (f_equal string_of_list_ascii) in Heq.
  by rewrite !string_of_list_ascii_of_string in Heq.
Qed.

(** X5: two requests share a cache key only if they are for the same
    resource: both for the build badge, or both for the same [app].  A
    deploy status is never read or written under the build key, nor
    under the key of another app. *)
Theorem cache_keys_do_not_collide r1 r2 key :
  cache_key r1 = Some key →
  cache_key r2 = Some key →
  match r1, r2 with
  | LastSvg, LastSvg => True
  | AppDeployed args1, AppDeployed args2 => args1 !! "app" = args2 !! "app"
  | _, _ => False
  end.
Proof.
  destruct r1 as [|args1], r2 as [|args2]; cbn [cache_key]; [done|..].
  - intros [= <-]. destruct (args2 !! "app") as [a|]; [|discriminate].
    intros [= Heq]. by destruct (deployed_key_is_not_build_key a).
  - destruct (args1 !! "app") as [a|]; [|discriminate].
    intros [= <-] [= Heq]. by destruct (deployed_key_is_not_build_key a).
  - destruct (args1 !! "app") as [a1|]; [|discriminate].
    destruct (args2 !! "app") as [a2|]; [|discriminate].
    intros [= <-] [= Heq]. f_equal. symmetry. by apply append_cancel_r in Heq.
Qed.

Lemma cache_keys_do_not_collide_witness :
  args_app "shop" !! "app" = (<["style" := "flat"]> (args_app "shop")) !! "app".
Proof.
  apply (cache_keys_do_not_collide (AppDeployed (args_app "shop"))
           (AppDeployed (<["style" := "flat"]> (args_app "shop"))) "shop_deployed");
    reflexivity.
Defined.

(** ** Other failures of the lookup *)

(** X6: an exception of the lookup that is not a connection error (a
    timeout, a response error) is not caught: it leaves the handler
    right after the lookup, before any upstream call or write. *)
Theorem other_lookup_errors_propagate r w key e :
  missing_input r w = false →
  cache_key r = Some key →
  redis_get_exn w = Some e →
  is_connection_error (RedisError e) = false →
  serve r w = (Raise (RedisError e), emit (RedisGet key) w).
Proof.
  intros Hcfg Hkey Hget Hconn. destruct r as [|args]; cbn [serve cache_key] in *.
  - injection Hkey as <-.
    apply present_inputs_last_svg in Hcfg as ([? Ht] & [? Hp] & [? Hu]).
    rewrite last_test_unfold, Ht, Hp, Hu. cbv zeta. by rewrite Hget, Hconn.
  - apply present_inputs_app_deployed in Hcfg as [[app_name Ha] [? Hu]].
    rewrite Ha in Hkey. injection Hkey as <-.
    rewrite app_deployed_unfold, Ha, Hu. cbv zeta. by rewrite Hget, Hconn.
Qed.

Lemma other_lookup_errors_propagate_witness :
  serve LastSvg w_cache_timeout
  = (Raise (RedisError TimeoutError), emit (RedisGet "build_result") w_cache_timeout).
Proof.
  apply (other_lookup_errors_propagate LastSvg w_cache_timeout "build_result" TimeoutError);
    reflexivity.
Defined.

(** X7: a cached value with an octet above 0x7F cannot be decoded: the
    handler raises [UnicodeDecodeError] right after the lookup, serves
    nothing and does not fall back to the upstream. *)
Theorem undecodable_cached_value_raises r w key cached :
  missing_input r w = false →
  cache_key r = Some key →
  redis_get_exn w = None →
  read_key key w = Some cached →
  Py.decode_ascii cached = None →
  serve r w = (Raise UnicodeDecodeError, emit (RedisGet key) w).
Proof.
  intros Hcfg Hkey Hget Hread Hdec. destruct r as [|args]; cbn [serve cache_key] in *.
  - injection Hkey as <-. by rewrite (last_test_hit w cached Hcfg Hget Hread), Hdec.
  - apply present_inputs_app_deployed in Hcfg as [[app_name Ha] [? Hu]].
    rewrite Ha in Hkey. injection Hkey as <-.
    rewrite app_deployed_unfold, Ha, Hu. cbv zeta. by rewrite Hget, Hread, Hdec.
Qed.

Lemma undecodable_cached_value_raises_witness :
  serve LastSvg w_cached_octets
  = (Raise UnicodeDecodeError, emit (RedisGet "build_result") w_cached_octets).
Proof.
  apply (undecodable_cached_value_raises LastSvg w_cached_octets "build_result"
           (Py.encode_utf8 superscript_two));
    reflexivity.
Defined.

(** ** The read-through of [/appdeployed] *)





(** The setting of a read-through for an app: [/appdeployed] is requested
    for [app_name] in a world with a redis URL, the lookup goes through
    and finds nothing, the write goes through, and [CACHE_TIMEOUT] is
    absent, rejected by [isdigit], or a decimal string that [int]
    accepts. *)
Section DeployCheckOnMiss.

Variables (args : gmap string string) (w : world) (app_name : string).
Hypothesis Happ : args !! "app" = Some app_name.
Hypothesis Hurl : is_Some (environ w !! "REDIS_URL").
Hypothesis Hlookup : redis_get_exn w = None.
Hypothesis Hmiss : read_key (app_name +:+ "_deployed") w = None.
Hypothesis Hwrite : redis_set_exn w = None.
Hypothesis Htimeout : timeout_readable (environ w !! "CACHE_TIMEOUT") = true.



(** The second request: for the same app, possibly in another style,
    less than the effective TTL later. *)
Variables (args2 : gmap string string) (d : Z).
Variables (set_exn : option redis_error) (status : option string).
Variable deployed : string → string.
Hypothesis Happ2 : args2 !! "app" = Some app_name.
Hypothesis Hwindow : (0 ≤ d < effective_ttl (environ w !! "CACHE_TIMEOUT"))%Z.




End DeployCheckOnMiss.




(** ** After the TTL *)

(** X11: once the effective TTL has elapsed, the entry that [last_test]
    wrote is gone: the next request finds nothing under [build_result]
    and calls the upstream again, so that two calls have been made over
    the two requests. *)
Theorem expired_entry_is_fetched_again w T d set_exn status deployed :
  missing_input LastSvg w = false →
  redis_get_exn w = None →
  read_key "build_result" w = None →
  last_test_run_status w = Some T →
  T ∈ BADGES_ENUM →
  redis_set_exn w = None →
  timeout_readable (environ w !! "CACHE_TIMEOUT") = true →
  (effective_ttl (environ w !! "CACHE_TIMEOUT") ≤ d)%Z →
  read_key "build_result" (later d None set_exn status deployed (snd (last_test w))) = None
  ∧ count is_fetch
      (trace (snd (last_test (later d None set_exn status deployed (snd (last_test w))))))
    = S (S (count is_fetch (trace w))).
Proof.
  intros Hcfg Hget Hread Hst Hin Hset Hto Hd.
  destruct (last_test_miss_valid_run w T Hcfg Hget Hread Hst Hin Hset Hto)
    as (w' & -> & Henv & Hnow & Hstore & Hcount).
  cbn [snd]. set (w2 := later d None set_exn status deployed w').
  assert (read_key "build_result" w2 = None) as Hread2.
  { unfold read_key, w2, later. cbn [store now]. rewrite Hstore, lookup_insert_eq.
    unfold live. cbn [set_at ex value]. rewrite bool_decide_eq_false_2; [done|lia]. }
  split; [exact Hread2|].
  pose proof (fetch_count_after_request LastSvg w2) as Hfetch.
  unfold fetch_needed in Hfetch. cbn [serve cache_key] in Hfetch.
  rewrite Hread2 in Hfetch.
  assert (missing_input LastSvg w2 = false) as Hcfg2.
  { simpl. rewrite Henv. exact Hcfg. }
  rewrite Hcfg2 in Hfetch. cbn in Hfetch. rewrite Hfetch.
  change (trace w2) with (trace w'). lia.
Qed.

Lemma expired_entry_is_fetched_again_witness :
  read_key "build_result"
    (later 900 None None (Some "failed") (deployed_always "heroku-failed")
       (snd (last_test w_fresh))) = None
  ∧ count is_fetch
      (trace (snd (last_test (later 900 None None (Some "failed")
                                (deployed_always "heroku-failed")
                                (snd (last_test w_fresh))))))
    = S (S (count is_fetch (trace w_fresh))).
Proof.
  apply (expired_entry_is_fetched_again w_fresh "succeeded" 900 None (Some "failed")
           (deployed_always "heroku-failed"));
    try reflexivity.
  unfold BADGES_ENUM. apply list_elem_of_here.
Defined.

(** ** The assets of [/appdeployed] *)

(** X12: every asset [app_deployed] serves lies in [BADGE_DIR] and is
    named badge, style suffix, [.png]: the suffix is [-flat] for
    [style=flat] and the text of [style] as given otherwise; the badge is
    [heroku-failed], or the decoded cached value of the app, or what the
    deploy check just answered. *)
Theorem app_deployed_response_shape args w resp :
  fst (app_deployed args w) = Return resp →
  ∃ badge,
    resp = File BADGE_DIR (badge +:+ style_suffix args +:+ "." +:+ "png")
    ∧ (badge = "heroku-failed"
       ∨ (∃ app_name cached,
            args !! "app" = Some app_name
            ∧ read_key (app_name +:+ "_deployed") w = Some cached
            ∧ Py.decode_ascii cached = Some badge)
       ∨ (∃ app_name,
            args !! "app" = Some app_name
            ∧ badge = fetched_token app_name args w)).
Proof.
  rewrite app_deployed_unfold. cbv zeta.
  destruct (args !! "app") as [app_name|] eqn:Happ;
    [|intros [= <-]; eexists; split; [reflexivity|by left]].
  destruct (environ w !! "REDIS_URL");
    [|intros [= <-]; eexists; split; [reflexivity|by left]].
  destruct (redis_get_exn w) as [e|].
  { destruct (is_connection_error _); [|discriminate].
    intros [= <-]. eexists; split; [reflexivity|by left]. }
  destruct (read_key _ w) as [cached|] eqn:Hread.
  { destruct (Py.decode_ascii cached) as [badge|] eqn:Hdec; [|discriminate].
    intros [= <-]. eexists; split; [reflexivity|]. right; left. eauto. }
  destruct (read_cache_timeout _) as [[ttl|e] w3]; [|discriminate].
  destruct (redis_set _ _ _ _) as [[[]|e] w4]; [|discriminate].
  intros [= <-]. eexists; split; [reflexivity|]. right; right. eauto.
Qed.

Lemma app_deployed_response_shape_witness :
  ∃ badge,
    File "./badges" "heroku-failed-flat.png"
    = File BADGE_DIR (badge +:+ style_suffix (<["style" := "flat"]> ∅) +:+ "." +:+ "png")
    ∧ (badge = "heroku-failed"
       ∨ (∃ app_name cached,
            (<["style" := "flat"]> ∅ : gmap string string) !! "app" = Some app_name
            ∧ read_key (app_name +:+ "_deployed") w_fresh = Some cached
            ∧ Py.decode_ascii cached = Some badge)
       ∨ (∃ app_name,
            (<["style" := "flat"]> ∅ : gmap string string) !! "app" = Some app_name
            ∧ badge = fetched_token app_name (<["style" := "flat"]> ∅) w_fresh)).
Proof.
  apply (app_deployed_response_shape (<["style" := "flat"]> ∅) w_fresh). reflexivity.
Defined.

(** ** A burst of requests *)

(** A hit, for either endpoint: the run is the lookup and the response. *)
Lemma serve_hit r w key T :
  missing_input r w = false →
  cache_key r = Some key →
  redis_get_exn w = None →
  read_key key w = Some T →
  valid_token r T →
  serve r w = (Return (badge_of r T), emit (RedisGet key) w).
Proof.
  intros Hcfg Hkey Hget Hread Hvalid.
  destruct r as [|args]; cbn [serve cache_key valid_token badge_of] in *.
  - injection Hkey as <-.
    rewrite (last_test_hit w T Hcfg Hget Hread), (badge_tokens_are_ascii T Hvalid).
    apply send_badge_file_member, badges_are_files, Hvalid.
  - apply present_inputs_app_deployed in Hcfg as [[app_name Ha] [? Hu]].
    rewrite Ha in Hkey. injection Hkey as <-.
    rewrite app_deployed_unfold, Ha, Hu. cbv zeta.
    by rewrite Hget, Hread, Hvalid.
Qed.

(** X13: while an entry with a valid token is alive, any series of
    requests for it is answered from the cache: every response is the
    badge of that token, the upstream is not called once, and the store
    is left as it was, so the entry expires when it was due to. *)
Theorem burst_within_ttl_is_served_from_cache r key T e delays : ∀ w,
  missing_input r w = false →
  cache_key r = Some key →
  redis_get_exn w = None →
  store w !! key = Some e →
  value e = T →
  valid_token r T →
  Forall (λ d, (0 ≤ d)%Z) delays →
  (now w + total_delay delays < set_at e + ex e)%Z →
  fst (replay r delays w) = replicate (List.length delays) (Return (badge_of r T))
  ∧ count is_fetch (trace (snd (replay r delays w))) = count is_fetch (trace w)
  ∧ store (snd (replay r delays w)) = store w.
Proof.
  induction delays as [|d delays IH]; intros w Hcfg Hkey Hget Hstore Hval Hvalid Hpos Hlife.
  { done. }
  apply Forall_cons in Hpos as [Hd Hpos]. cbn [total_delay foldr] in Hlife.
  fold (total_delay delays) in Hlife.
  assert (0 ≤ total_delay delays)%Z as Hrest.
  { clear -Hpos. induction Hpos; cbn [total_delay foldr]; [done|].
    fold (total_delay l). lia. }
  assert (read_key key (advance d w) = Some T) as Hread.
  { unfold read_key, advance, later. cbn [store now]. rewrite Hstore.
    unfold live. rewrite bool_decide_eq_true_2 by lia. by rewrite Hval. }
  assert (missing_input r (advance d w) = false) as Hcfg'.
  { destruct r; exact Hcfg. }
  cbn [replay].
  rewrite (serve_hit r (advance d w) key T Hcfg' Hkey Hget Hread Hvalid).
  set (w1 := emit (RedisGet key) (advance d w)).
  assert (missing_input r w1 = false) as Hcfg1 by (destruct r; exact Hcfg).
  destruct (IH w1 Hcfg1 Hkey Hget Hstore Hval Hvalid Hpos) as (Hres & Hcount & Hst).
  { unfold w1, advance, later. cbn [now emit with_trace]. lia. }
  destruct (replay r delays w1) as [rest w2]. cbn [fst snd] in *.
  rewrite Hres, Hcount, Hst. split; [done|]. split; [|done].
  unfold w1. rewrite count_emit. cbn [advance later trace is_fetch]. lia.
Qed.

Lemma burst_within_ttl_is_served_from_cache_witness :
  fst (replay LastSvg [100; 200; 300] (w_cached "build_result" "succeeded"))
  = replicate 3 (Return (File "./badges" "succeeded.svg"))
  ∧ count is_fetch
      (trace (snd (replay LastSvg [100; 200; 300] (w_cached "build_result" "succeeded"))))
    = count is_fetch (trace (w_cached "build_result" "succeeded"))
  ∧ store (snd (replay LastSvg [100; 200; 300] (w_cached "build_result" "succeeded")))
    = store (w_cached "build_result" "succeeded").
Proof.
  apply (burst_within_ttl_is_served_from_cache LastSvg "build_result" "succeeded"
           (Entry "succeeded" 0 900) [100; 200; 300]%Z
           (w_cached "build_result" "succeeded"));
    try reflexivity.
  - simpl. unfold BADGES_ENUM. apply list_elem_of_here.
  - repeat constructor; discriminate 1.
Defined.
